(** * bloomfieldHours: store-hours table, favorites and offline cache

    A shallow embedding of [service-worker.js] (the service worker and the
    two versions of the [StoreTable] component) and the properties of its
    filtering, time parsing, sorting, favorite persistence and cache-first
    fetch handler.

    Modelling conventions.
    - JavaScript strings are [string]s of 8-bit characters (the time strings,
      day names and filter labels of the program are ASCII).
    - A JavaScript number is a [number]: [NaN] or an integer [Num z]; every
      number the program computes is an integer far below 2^53.
    - A [Date] is its time value, a [number] of milliseconds of UTC. The
      time value of [new Date(y, m, d, h, min)] is
      [UTC (MakeDate (MakeDay y m d) (MakeTime h min 0 0))], where [UTC] is
      the conversion from local time of the time zone the program runs in;
      the local fields of a date are read through [LocalTime].
    - Objects used as dictionaries ([hours], [favorites], [localStorage]) are
      finite maps of their own properties.
    - Code that can throw or write to [localStorage] runs in the monad [M]
      over the [World] (the static store array and the browser storage). *)

From Stdlib Require Import ZArith Lia Ascii String.
From stdpp Require Import gmap strings list fin_maps.

Local Open Scope string_scope.
Local Open Scope Z_scope.

(** ** JavaScript runtime *)

Module JS.

Inductive exn : Type := TypeError | SyntaxError.

Inductive result (A : Type) : Type :=
| Ok (a : A)
| Throw (e : exn).
Arguments Ok {A} a.
Arguments Throw {A} e.

Inductive number : Type :=
| NaN
| Num (z : Z).

(** Relational operators and subtraction on numbers; a comparison with
    [NaN] is false. *)
Definition le (x y : number) : bool :=
  match x, y with
  | Num a, Num b => a <=? b
  | _, _ => false
  end.

Definition ge (x y : number) : bool := le y x.

Definition lt (x y : number) : bool :=
  match x, y with
  | Num a, Num b => a <? b
  | _, _ => false
  end.

Definition strict_eq (x y : number) : bool :=
  match x, y with
  | Num a, Num b => a =? b
  | _, _ => false
  end.

Definition sub (x y : number) : number :=
  match x, y with
  | Num a, Num b => Num (a - b)
  | _, _ => NaN
  end.

(** [ToBoolean] of a property that holds a boolean or is [undefined]. *)
Definition truthy (v : option bool) : bool :=
  match v with
  | Some b => b
  | None => false
  end.

(** [s.substring(start, end)]: both indices are clamped to the length and
    swapped when out of order. *)
Definition substring (s : string) (start end_ : nat) : string :=
  let len := String.length s in
  let a := Nat.min start len in
  let b := Nat.min end_ len in
  String.substring (Nat.min a b) (Nat.max a b - Nat.min a b) s.

(** [parseInt(s, 10)]: leading white space is skipped, one sign is read,
    then the longest prefix of decimal digits; no digit gives [NaN]. The
    white space below 256: tab to carriage return, space and no-break
    space. *)
Definition isWhiteSpace (c : ascii) : bool :=
  let n := N_of_ascii c in
  ((9 <=? n) && (n <=? 13))%N || (n =? 32)%N || (n =? 160)%N.

Fixpoint trimStart (s : string) : string :=
  match s with
  | String c s' => if isWhiteSpace c then trimStart s' else s
  | EmptyString => EmptyString
  end.

Definition digitValue (c : ascii) : option Z :=
  let n := Z.of_N (N_of_ascii c) in
  if (48 <=? n) && (n <=? 57) then Some (n - 48) else None.

Fixpoint digits (acc : option Z) (s : string) : option Z :=
  match s with
  | String c s' =>
      match digitValue c with
      | Some d => digits (Some (10 * default 0 acc + d)) s'
      | None => acc
      end
  | EmptyString => acc
  end.

Definition parseInt (s : string) : number :=
  let s1 := trimStart s in
  let '(sign, s2) :=
    match s1 with
    | String "-"%char r => (-1, r)
    | String "+"%char r => (1, r)
    | _ => (1, s1)
    end in
  match digits None s2 with
  | Some n => Num (sign * n)
  | None => NaN
  end.

(** [ToBoolean] of a string: only the empty string is falsy. *)
Definition nonEmpty (s : string) : bool :=
  match s with
  | EmptyString => false
  | String _ _ => true
  end.

(** [s.includes(t)]: [t] occurs in [s] at some position. *)
Fixpoint includes (s t : string) : bool :=
  String.prefix t s ||
  match s with
  | String _ s' => includes s' t
  | EmptyString => false
  end.

(** Time values (ECMAScript 21.4.1). *)
Definition msPerMinute : Z := 60000.
Definition msPerHour : Z := 3600000.
Definition msPerDay : Z := 86400000.

Definition MakeTime (hour min : Z) : Z := hour * msPerHour + min * msPerMinute.
Definition MakeDate (day time : Z) : Z := day * msPerDay + time.

Definition Day (t : Z) : Z := t / msPerDay.
Definition HourFromTime (t : Z) : Z := (t / msPerHour) mod 24.
Definition MinFromTime (t : Z) : Z := (t / msPerMinute) mod 60.

(** [new Date(y, m, d, hours, minutes)] where [day] is [MakeDay y m d] and
    [UTC] converts a local time value to UTC (ECMAScript 21.4.1.26): a [NaN]
    argument gives the invalid date. *)
Definition newDate (UTC : Z -> Z) (day : Z) (hours minutes : number) : number :=
  match hours, minutes with
  | Num h, Num m => Num (UTC (MakeDate day (MakeTime h m)))
  | _, _ => NaN
  end.

End JS.

Import JS.

(** ** Data model, environment and effects *)

(** [type Store = { name: string; hours: Record<string, { open: string; close: string }> }] *)
Record Hours : Type := { open : string; close : string }.

Record Store : Type := { name : string; hours : gmap string Hours }.

(** What the component reads from outside the program text: the clock
    ([dayjs().format("dddd")], [dayjs().format("HHmm")] and the calendar day
    of [new Date()], as [MakeDay] of its year, month and date), taken as
    fixed during one recomputation; the time zone, as the conversions [UTC]
    from a local time value to UTC and [LocalTime] from UTC to local time
    (with a daylight-saving change the offset between them is not the same
    over the day); the runtime's case mapping; and [JSON.stringify] and
    [JSON.parse] on values of the declared state type
    [{ [k: string]: boolean }] ([None]: [JSON.parse] throws). The object is
    the finite map of its properties: the order in which [JSON.stringify]
    writes the keys (their insertion order) is not modelled, and nothing is
    stated about it. *)
Record Env : Type := {
  toLowerCase : string -> string;
  getCurrentDay : string;
  getCurrentTime : string;
  currentLocalDay : Z;
  UTC : Z -> Z;
  LocalTime : Z -> Z;
  JSON_stringify : gmap string bool -> string;
  JSON_parse : string -> option (gmap string bool)
}.

(** The mutable world: [storeData] (the array [bloomfield.stores], whose
    fixture file is not part of the sources) and [localStorage]. *)
Record World : Type := {
  storeData : list Store;
  localStorage : gmap string string
}.

(** State and exceptions: a computation returns a value or throws, and
    leaves a world behind in both cases. *)
Definition M (A : Type) : Type := World -> result A * World.

Definition ret {A : Type} (a : A) : M A := fun w => (Ok a, w).

Definition bind {A B : Type} (m : M A) (f : A -> M B) : M B := fun w =>
  match m w with
  | (Ok a, w') => f a w'
  | (Throw e, w') => (Throw e, w')
  end.

Notation "x <- m ;; k" := (bind m (fun x => k))
  (at level 100, m at next level, right associativity).
Notation "m ;; k" := (bind m (fun _ => k))
  (at level 100, right associativity).

Definition throw {A : Type} (e : exn) : M A := fun w => (Throw e, w).

Definition readStoreData : M (list Store) := fun w => (Ok (storeData w), w).

(** [localStorage.getItem(key)] ([None] is [null]) and
    [localStorage.setItem(key, value)]. *)
Definition getItem (key : string) : M (option string) :=
  fun w => (Ok (localStorage w !! key), w).

Definition setItem (key value : string) : M unit :=
  fun w => (Ok tt, {| storeData := storeData w;
                      localStorage := <[key := value]> (localStorage w) |}).

(** [Array.prototype.filter] and [Array.prototype.map] with a callback that
    may throw: the elements are visited in order and the first exception
    ends the traversal. *)
Fixpoint Array_filter {A : Type} (callback : A -> M bool) (l : list A) : M (list A) :=
  match l with
  | [] => ret []
  | x :: l' =>
      b <- callback x;;
      r <- Array_filter callback l';;
      ret (if b then x :: r else r)
  end.

Fixpoint Array_map {A B : Type} (callback : A -> M B) (l : list A) : M (list B) :=
  match l with
  | [] => ret []
  | x :: l' =>
      y <- callback x;;
      r <- Array_map callback l';;
      ret (y :: r)
  end.

(** [parseTimeToJSDate] (the same in both versions of the component). The
    argument is [undefined] ([None]) when it was destructured from the [{}]
    fallback; [time.substring] then throws a [TypeError]. *)
Definition parseTimeToJSDate (env : Env) (time : option string) : M number :=
  match time with
  | None => throw TypeError
  | Some time =>
      let hours := parseInt (substring time 0 2) in
      let minutes := parseInt (substring time 2 4) in
      ret (newDate (UTC env) (currentLocalDay env) hours minutes)
  end.

(** ** The component with favorites *)

Module WithFavorites.

(** The [useState] cells of [StoreTable] that the computations read
    ([sorting] belongs to the table library). *)
Record State : Type := {
  search : string;
  dayFilter : string;
  openFilter : string;
  onlyFavs : string;
  favorites : gmap string bool
}.

(** A table row: [Store & { favorite: boolean }]. *)
Record Row : Type := {
  row_name : string;
  row_hours : gmap string Hours;
  favorite : bool
}.

(** [useState(JSON.parse(localStorage.getItem("favorites") ?? "{}"))] *)
Definition initialFavorites (env : Env) : M (gmap string bool) :=
  item <- getItem "favorites";;
  match JSON_parse env (default "{}" item) with
  | Some parsed => ret parsed
  | None => throw SyntaxError
  end.

(** The callback of [storeData.filter], with its early returns. *)
Definition filterCallback (env : Env) (st : State) (store : Store) : M bool :=
  if String.eqb (onlyFavs st) "Favorites" && negb (truthy (favorites st !! name store))
  then ret false
  else if nonEmpty (search st) &&
          negb (includes (toLowerCase env (name store)) (toLowerCase env (search st)))
  then ret false
  else if String.eqb (openFilter st) "Open Now" then
    let today :=
      if String.eqb (dayFilter st) "Current Day" then getCurrentDay env else dayFilter st in
    let now := getCurrentTime env in
    let entry := hours store !! today in
    parsedOpen <- parseTimeToJSDate env (open <$> entry);;
    parsedClose <- parseTimeToJSDate env (close <$> entry);;
    parsedNow <- parseTimeToJSDate env (Some now);;
    if negb (ge parsedNow parsedOpen && le parsedNow parsedClose)
    then ret false
    else ret true
  else ret true.

(** The callback of [.map]: [{ ...store, favorite: favorites[store.name] || false }]. *)
Definition mapCallback (st : State) (store : Store) : M Row :=
  ret {| row_name := name store;
         row_hours := hours store;
         favorite := truthy (favorites st !! name store) |}.

Definition filteredData (env : Env) (st : State) : M (list Row) :=
  stores <- readStoreData;;
  kept <- Array_filter (filterCallback env st) stores;;
  Array_map (mapCallback st) kept.

(** [sortingFn] of the Hours column; [dayFilter] is the variable of the
    closure. The array of the two closing times is destructured; on a
    shorter array [getTime] would be called on [undefined]. *)
Definition sortingFn (env : Env) (dayFilter : string) (a b : Row) : M number :=
  closings <- Array_map (fun row : Row =>
      let today :=
        if String.eqb dayFilter "Current Day" then getCurrentDay env else dayFilter in
      let entry := row_hours row !! today in
      parsedClose <- parseTimeToJSDate env (close <$> entry);;
      ret parsedClose) [a; b];;
  match closings with
  | [aClosing; bClosing] => ret (sub aClosing bClosing)
  | _ => throw TypeError
  end.

(** [columns = useMemo(() => [...], [favorites])]: the column definitions
    are built again only when [favorites] differs from the dependency of
    the previous render; the closures of a definition ([cell], [sortingFn])
    read the [dayFilter] of the render that built it. React compares the
    dependency by identity; the state holds another object only after
    [setFavorites], which [onClick] calls with a map that differs in the
    toggled flag, so identity and equality of the maps agree here. *)
Record Columns : Type := {
  dependency : gmap string bool;
  closure_dayFilter : string
}.

Definition useMemo_columns (previous : option Columns) (st : State) : Columns :=
  let built := {| dependency := favorites st; closure_dayFilter := dayFilter st |} in
  match previous with
  | Some memo => if decide (dependency memo = favorites st) then memo else built
  | None => built
  end.

(** The comparator the table calls for the Hours column. *)
Definition columns_sortingFn (env : Env) (columns : Columns) (a b : Row) : M number :=
  sortingFn env (closure_dayFilter columns) a b.

(** [setDayFilter], the [onChange] of the day selector. *)
Definition setDayFilter (value : string) (st : State) : State :=
  {| search := search st;
     dayFilter := value;
     openFilter := openFilter st;
     onlyFavs := onlyFavs st;
     favorites := favorites st |}.

(** [onClick] of a table cell: only a cell of the favorites column toggles. *)
Definition onClick (env : Env) (columnId : string) (original : Row) (st : State) : M State :=
  if negb (String.eqb columnId "favorites") then ret st
  else
    let storeName := row_name original in
    let isFavorite := favorites st !! storeName in
    let updatedFavorites := <[storeName := negb (truthy isFavorite)]> (favorites st) in
    setItem "favorites" (JSON_stringify env updatedFavorites);;
    ret {| search := search st;
           dayFilter := dayFilter st;
           openFilter := openFilter st;
           onlyFavs := onlyFavs st;
           favorites := updatedFavorites |}.

End WithFavorites.

(** ** The component without favorites *)

Module NoFavorites.

Record State : Type := {
  search : string;
  dayFilter : string;
  openFilter : string
}.

Definition filterCallback (env : Env) (st : State) (store : Store) : M bool :=
  if nonEmpty (search st) &&
     negb (includes (toLowerCase env (name store)) (toLowerCase env (search st)))
  then ret false
  else if String.eqb (openFilter st) "Open Now" then
    let today :=
      if String.eqb (dayFilter st) "Current Day" then getCurrentDay env else dayFilter st in
    let now := getCurrentTime env in
    let entry := hours store !! today in
    parsedOpen <- parseTimeToJSDate env (open <$> entry);;
    parsedClose <- parseTimeToJSDate env (close <$> entry);;
    parsedNow <- parseTimeToJSDate env (Some now);;
    if negb (ge parsedNow parsedOpen && le parsedNow parsedClose)
    then ret false
    else ret true
  else ret true.

Definition filteredData (env : Env) (st : State) : M (list Store) :=
  stores <- readStoreData;;
  Array_filter (filterCallback env st) stores.

Definition sortingFn (env : Env) (dayFilter : string) (a b : Store) : M number :=
  closings <- Array_map (fun row : Store =>
      let today :=
        if String.eqb dayFilter "Current Day" then getCurrentDay env else dayFilter in
      let entry := hours row !! today in
      parsedClose <- parseTimeToJSDate env (close <$> entry);;
      ret parsedClose) [a; b];;
  match closings with
  | [aClosing; bClosing] => ret (sub aClosing bClosing)
  | _ => throw TypeError
  end.

(** [columns] is rebuilt at every render: the comparator the table calls
    reads the [dayFilter] of the current state. *)
Definition columns_sortingFn (env : Env) (st : State) (a b : Store) : M number :=
  sortingFn env (dayFilter st) a b.

End NoFavorites.

(** ** The service worker *)

Module ServiceWorker.

(** A settled promise. *)
Inductive promise (A : Type) : Type :=
| Fulfilled (a : A)
| Rejected (reason : exn).
Arguments Fulfilled {A} a.
Arguments Rejected {A} reason.

(** [p.then(onFulfilled)]: the promise a callback returns is adopted. *)
Definition then_ {A B : Type} (p : promise A) (onFulfilled : A -> promise B) : promise B :=
  match p with
  | Fulfilled a => onFulfilled a
  | Rejected reason => Rejected reason
  end.

(** [caches.match] ([None]: it resolves to [undefined]) and the network
    [fetch]. *)
Record Browser (Request Response : Type) : Type := {
  caches_match : Request -> promise (option Response);
  fetch : Request -> promise Response
}.
Arguments caches_match {Request Response} _ _.
Arguments fetch {Request Response} _ _.

(** The promise handed to [event.respondWith] by the fetch listener. *)
Definition onFetch {Request Response : Type} (browser : Browser Request Response)
    (request : Request) : promise Response :=
  then_ (caches_match browser request) (fun response =>
    match response with
    | Some cached => Fulfilled cached
    | None => fetch browser request
    end).

End ServiceWorker.

(** ** Notions used in the statements *)

(** The day the filter and the comparator look up: [today] in the source. *)
Definition selectedDay (env : Env) (dayFilter : string) : string :=
  if String.eqb dayFilter "Current Day" then getCurrentDay env else dayFilter.

(** [t] occurs in [s]. *)
Definition contains (s t : string) : Prop :=
  exists pre post : string, s = pre +:+ t +:+ post.

(** The three filter predicates, each a function of the state and of one
    store only. *)
Definition favoritesPredicate (onlyFavs : string) (favorites : gmap string bool)
    (store : Store) : bool :=
  if String.eqb onlyFavs "Favorites" then truthy (favorites !! name store) else true.

Definition searchPredicate (env : Env) (search : string) (store : Store) : bool :=
  if nonEmpty search
  then includes (toLowerCase env (name store)) (toLowerCase env search)
  else true.

(** The time value of a time string that is not [undefined]. *)
Definition timeValue (env : Env) (time : string) : number :=
  newDate (UTC env) (currentLocalDay env)
    (parseInt (substring time 0 2)) (parseInt (substring time 2 4)).

(** Now lies in the closed window from [open] to [close]. *)
Definition inWindow (env : Env) (entry : Hours) : bool :=
  le (timeValue env (open entry)) (timeValue env (getCurrentTime env)) &&
  le (timeValue env (getCurrentTime env)) (timeValue env (close entry)).

Definition openNowPredicate (env : Env) (dayFilter openFilter : string)
    (store : Store) : bool :=
  if String.eqb openFilter "Open Now" then
    match hours store !! selectedDay env dayFilter with
    | Some entry => inWindow env entry
    | None => false
    end
  else true.

(** No store reaches the window test without an entry for the selected
    day: the condition under which the filter callback does not throw. *)
Definition entriesPresent (env : Env) (onlyFavs : string) (favorites : gmap string bool)
    (search dayFilter openFilter : string) (stores : list Store) : Prop :=
  forall store : Store,
    store ∈ stores ->
    openFilter = "Open Now" ->
    favoritesPredicate onlyFavs favorites store = true ->
    searchPredicate env search store = true ->
    is_Some (hours store !! selectedDay env dayFilter).

(** A kept store with its favorite flag. *)
Definition decorated (favorites : gmap string bool) (store : Store) : WithFavorites.Row :=
  {| WithFavorites.row_name := name store;
     WithFavorites.row_hours := hours store;
     WithFavorites.favorite := truthy (favorites !! name store) |}.

(** A time string in HHMM form: four decimal digits, the hour below 24 and
    the minute below 60. *)
Definition decimal (c : ascii) : Z := Z.of_N (N_of_ascii c) - 48.

Definition isDigit (c : ascii) : bool := (0 <=? decimal c) && (decimal c <=? 9).

Definition hourOf (s : string) : Z :=
  match s with
  | String a (String b _) => 10 * decimal a + decimal b
  | _ => 0
  end.

Definition minuteOf (s : string) : Z :=
  match s with
  | String _ (String _ (String c (String d _))) => 10 * decimal c + decimal d
  | _ => 0
  end.

Definition isHHMM (s : string) : bool :=
  match s with
  | String a (String b (String c (String d EmptyString))) =>
      isDigit a && isDigit b && isDigit c && isDigit d &&
      (hourOf s <? 24) && (minuteOf s <? 60)
  | _ => false
  end.

(** The time zone keeps one UTC offset over the current local day and the
    [days - 1] days after it: no daylight-saving change falls in them. *)
Definition offsetFixed (env : Env) (days : Z) : Prop :=
  exists offset : Z,
    forall t : Z,
      MakeDate (currentLocalDay env) 0 <= t < MakeDate (currentLocalDay env + days) 0 ->
      UTC env t = t - offset /\ LocalTime env (t - offset) = t.

(** The current time lies between the parsed opening and closing times of
    an entry: with the closing time included ([nowInClosedWindow]) and with
    it excluded ([nowInHalfOpenWindow]). *)
Definition nowInClosedWindow (env : Env) (entry : Hours) (w : World) : Prop :=
  exists tOpen tNow tClose : Z,
    parseTimeToJSDate env (Some (open entry)) w = (Ok (Num tOpen), w) /\
    parseTimeToJSDate env (Some (getCurrentTime env)) w = (Ok (Num tNow), w) /\
    parseTimeToJSDate env (Some (close entry)) w = (Ok (Num tClose), w) /\
    tOpen <= tNow /\ tNow <= tClose.

Definition nowInHalfOpenWindow (env : Env) (entry : Hours) (w : World) : Prop :=
  exists tOpen tNow tClose : Z,
    parseTimeToJSDate env (Some (open entry)) w = (Ok (Num tOpen), w) /\
    parseTimeToJSDate env (Some (getCurrentTime env)) w = (Ok (Num tNow), w) /\
    parseTimeToJSDate env (Some (close entry)) w = (Ok (Num tClose), w) /\
    tOpen <= tNow /\ tNow < tClose.

(** ** Notions used in the further statements *)

(** Four decimal digits, whatever the hour and the minute they spell. *)
Definition fourDigits (s : string) : bool :=
  match s with
  | String a (String b (String c (String d EmptyString))) =>
      isDigit a && isDigit b && isDigit c && isDigit d
  | _ => false
  end.

(** The minutes since midnight that a time string spells. *)
Definition minutesOfDay (s : string) : Z := 60 * hourOf s + minuteOf s.

(** Both comparators, on two stores and on their rows, end with the same
    outcome. *)
Definition comparatorReturns (env : Env) (dayFilter : string) (a b : Store)
    (favorites : gmap string bool) (w : World) (outcome : result number) : Prop :=
  WithFavorites.sortingFn env dayFilter (decorated favorites a) (decorated favorites b) w
    = (outcome, w) /\
  NoFavorites.sortingFn env dayFilter a b w = (outcome, w).

(** Both filter callbacks, under the "Open Now" filter, end with the same
    outcome. *)
Definition openNowReturns (env : Env) (search dayFilter onlyFavs : string)
    (favorites : gmap string bool) (store : Store) (w : World)
    (outcome : result bool) : Prop :=
  WithFavorites.filterCallback env
    {| WithFavorites.search := search;
       WithFavorites.dayFilter := dayFilter;
       WithFavorites.openFilter := "Open Now";
       WithFavorites.onlyFavs := onlyFavs;
       WithFavorites.favorites := favorites |} store w = (outcome, w) /\
  NoFavorites.filterCallback env
    {| NoFavorites.search := search;
       NoFavorites.dayFilter := dayFilter;
       NoFavorites.openFilter := "Open Now" |} store w = (outcome, w).

(** ** The rest of the component: cells, day selector, clicks *)

Module Table.

(** A value interpolated in a template literal; [undefined] prints as the
    word. *)
Definition interpolate (v : option string) : string :=
  match v with
  | Some s => s
  | None => "undefined"
  end.

(** [cell] of the Hours column (the same in both versions), on the [hours]
    of [row.original]; [dayFilter] is the variable of the closure. *)
Definition cell (env : Env) (dayFilter : string) (hours : gmap string Hours) : string :=
  let today :=
    if String.eqb dayFilter "Current Day" then getCurrentDay env else dayFilter in
  let entry := hours !! today in
  interpolate (open <$> entry) +:+ " - " +:+ interpolate (close <$> entry).

(** The Hours cell the table renders: with the memoised columns in the
    version with favorites, with the columns of the current render in the
    version without. *)
Definition columns_cell (env : Env) (columns : WithFavorites.Columns)
    (row : WithFavorites.Row) : string :=
  cell env (WithFavorites.closure_dayFilter columns) (WithFavorites.row_hours row).

Definition columns_cell' (env : Env) (st : NoFavorites.State) (row : Store) : string :=
  cell env (NoFavorites.dayFilter st) (hours row).

Record SelectOption : Type := { value : string; label : string }.

(** [Object.keys(o)]: the own keys of [o]. Their order (insertion order in
    the program) is not kept by the finite map; the keys come in the order
    of its enumeration. *)
Definition Object_keys {A : Type} (o : gmap string A) : list string :=
  (map_to_list o).*1.

(** The options of the day selector (the same in both versions):
    [storeData[0]] is [undefined] on an empty array and reading its [hours]
    throws. *)
Definition dayOptions : M (list SelectOption) :=
  stores <- readStoreData;;
  match stores with
  | [] => throw TypeError
  | first :: _ =>
      ret ({| value := "Current Day"; label := "Current Day" |} ::
           ((fun day => {| value := day; label := day |}) <$> Object_keys (hours first)))
  end.

(** A sequence of clicks on cells, each given by the id of its column and
    the row it belongs to; every click is handled in the state the previous
    one left. *)
Fixpoint clicks (env : Env) (events : list (string * WithFavorites.Row))
    (st : WithFavorites.State) : M WithFavorites.State :=
  match events with
  | [] => ret st
  | (columnId, original) :: rest =>
      st' <- WithFavorites.onClick env columnId original st;;
      clicks env rest st'
  end.

(** [setSearch], called by the search box with the text typed, and
    [setOpenFilter] and [setOnlyFavs], called by their selectors. *)
Definition setSearch (text : string) (st : WithFavorites.State) : WithFavorites.State :=
  {| WithFavorites.search := text;
     WithFavorites.dayFilter := WithFavorites.dayFilter st;
     WithFavorites.openFilter := WithFavorites.openFilter st;
     WithFavorites.onlyFavs := WithFavorites.onlyFavs st;
     WithFavorites.favorites := WithFavorites.favorites st |}.

Definition setOpenFilter (choice : string) (st : WithFavorites.State) : WithFavorites.State :=
  {| WithFavorites.search := WithFavorites.search st;
     WithFavorites.dayFilter := WithFavorites.dayFilter st;
     WithFavorites.openFilter := choice;
     WithFavorites.onlyFavs := WithFavorites.onlyFavs st;
     WithFavorites.favorites := WithFavorites.favorites st |}.

Definition setOnlyFavs (choice : string) (st : WithFavorites.State) : WithFavorites.State :=
  {| WithFavorites.search := WithFavorites.search st;
     WithFavorites.dayFilter := WithFavorites.dayFilter st;
     WithFavorites.openFilter := WithFavorites.openFilter st;
     WithFavorites.onlyFavs := choice;
     WithFavorites.favorites := WithFavorites.favorites st |}.

(** The state of the version without favorites that has the same search
    text, day and open filter. *)
Definition withoutFavorites (st : WithFavorites.State) : NoFavorites.State :=
  {| NoFavorites.search := WithFavorites.search st;
     NoFavorites.dayFilter := WithFavorites.dayFilter st;
     NoFavorites.openFilter := WithFavorites.openFilter st |}.

End Table.

(** ** The install handler of the service worker *)

Module Precache.

(** The URLs handed to [cache.addAll]. *)
Definition precached : list string :=
  ["/"; "/index.html"; "/static/js/bundle.js"; "/static/js/0.chunk.js";
   "/static/js/main.chunk.js"; "/manifest.json"; "/favicon.ico";
   "/logo192.png"; "/logo512.png"].

Section CacheStorage.

Context {Response : Type}.

(** The network and [response.ok]. Requests are the resolved URLs of GET
    requests. *)
Variable network : string -> ServiceWorker.promise Response.
Variable ok : Response -> bool.

(** The cache storage of the origin: its named caches in creation order. *)
Definition CacheStorage : Type := list (string * gmap string Response).

Fixpoint lookupCache (cacheName : string) (caches : CacheStorage)
    : option (gmap string Response) :=
  match caches with
  | [] => None
  | (n, c) :: rest => if String.eqb n cacheName then Some c else lookupCache cacheName rest
  end.

(** Writes the content of a named cache; a cache that does not exist yet is
    created last. *)
Fixpoint writeCache (cacheName : string) (content : gmap string Response)
    (caches : CacheStorage) : CacheStorage :=
  match caches with
  | [] => [(cacheName, content)]
  | (n, c) :: rest =>
      if String.eqb n cacheName then (n, content) :: rest
      else (n, c) :: writeCache cacheName content rest
  end.

(** [caches.match(request)]: the first cache, in creation order, that holds
    the URL answers. *)
Fixpoint storage_match (url : string) (caches : CacheStorage) : option Response :=
  match caches with
  | [] => None
  | (_, c) :: rest =>
      match c !! url with
      | Some response => Some response
      | None => storage_match url rest
      end
  end.

(** The fetches of [cache.addAll]: a network error or a response that is
    not ok rejects the whole call. *)
Fixpoint fetchAll (urls : list string) : ServiceWorker.promise (list (string * Response)) :=
  match urls with
  | [] => ServiceWorker.Fulfilled []
  | url :: rest =>
      ServiceWorker.then_ (network url) (fun response =>
        if ok response then
          ServiceWorker.then_ (fetchAll rest) (fun fetched =>
            ServiceWorker.Fulfilled ((url, response) :: fetched))
        else ServiceWorker.Rejected TypeError)
  end.

(** [cache.addAll(urls)]: nothing is stored unless every fetch succeeded. *)
Definition addAll (urls : list string) (cache : gmap string Response)
    : ServiceWorker.promise (gmap string Response) :=
  ServiceWorker.then_ (fetchAll urls) (fun fetched =>
    ServiceWorker.Fulfilled
      (foldl (fun c entry => <[fst entry := snd entry]> c) cache fetched)).

(** The promise handed to [event.waitUntil] by the install listener, and
    the cache storage it leaves: [caches.open("my-cache")] creates the cache
    when it is missing, also when [addAll] then rejects. *)
Definition onInstall (caches : CacheStorage)
    : ServiceWorker.promise unit * CacheStorage :=
  let cache := default ∅ (lookupCache "my-cache" caches) in
  match addAll precached cache with
  | ServiceWorker.Fulfilled cache' =>
      (ServiceWorker.Fulfilled tt, writeCache "my-cache" cache' caches)
  | ServiceWorker.Rejected reason =>
      (ServiceWorker.Rejected reason, writeCache "my-cache" cache caches)
  end.

(** The browser the fetch listener runs in, over a cache storage. *)
Definition browserOf (caches : CacheStorage) : ServiceWorker.Browser string Response :=
  {| ServiceWorker.caches_match := fun url =>
       ServiceWorker.Fulfilled (storage_match url caches);
     ServiceWorker.fetch := network |}.

End CacheStorage.

End Precache.

(** ** A concrete environment *)

Module Example.

(** Case mapping of the ASCII letters. *)
Definition lowerChar (c : ascii) : ascii :=
  let n := N_of_ascii c in
  if ((65 <=? n) && (n <=? 90))%N then ascii_of_N (n + 32) else c.

Fixpoint asciiLower (s : string) : string :=
  match s with
  | String c s' => String (lowerChar c) (asciiLower s')
  | EmptyString => EmptyString
  end.

(** JSON text of a flat object of booleans, with the quotation mark and the
    backslash escaped in keys, and its parser. *)
Definition quotationMark : ascii := "034"%char.
Definition backslash : ascii := "092"%char.

Fixpoint escape (s : string) : string :=
  match s with
  | String c s' =>
      if Ascii.eqb c quotationMark || Ascii.eqb c backslash
      then String backslash (String c (escape s'))
      else String c (escape s')
  | EmptyString => EmptyString
  end.

(** One member followed by [rest]. *)
Definition member (kv : string * bool) (rest : string) : string :=
  String quotationMark
    (escape (fst kv) +:+
     String quotationMark (String ":" ((if snd kv then "true" else "false") +:+ rest))).

Fixpoint members (l : list (string * bool)) : string :=
  match l with
  | [] => "}"
  | [kv] => member kv "}"
  | kv :: l' => member kv (String "," (members l'))
  end.

Definition stringify (m : gmap string bool) : string :=
  String "{" (members (map_to_list m)).

(** Reads a key up to its closing quotation mark; [acc] holds the
    characters read so far, last first. *)
Fixpoint parseKey (acc : list ascii) (s : string) : option (string * string) :=
  match s with
  | EmptyString => None
  | String c s' =>
      if Ascii.eqb c quotationMark then Some (string_of_list_ascii (rev acc), s')
      else if Ascii.eqb c backslash then
        match s' with
        | String d s'' => parseKey (d :: acc) s''
        | EmptyString => None
        end
      else parseKey (c :: acc) s'
  end.

Definition parseValue (s : string) : option (bool * string) :=
  match s with
  | String "t" (String "r" (String "u" (String "e" r))) => Some (true, r)
  | String "f" (String "a" (String "l" (String "s" (String "e" r)))) => Some (false, r)
  | _ => None
  end.

Fixpoint parseMembers (fuel : nat) (s : string) : option (list (string * bool)) :=
  match fuel with
  | O => None
  | S fuel' =>
      match s with
      | String q r =>
          if Ascii.eqb q quotationMark then
            match parseKey [] r with
            | Some (k, String ":" r1) =>
                match parseValue r1 with
                | Some (v, String "," r2) =>
                    option_map (cons (k, v)) (parseMembers fuel' r2)
                | Some (v, String "}" EmptyString) => Some [(k, v)]
                | _ => None
                end
            | _ => None
            end
          else None
      | EmptyString => None
      end
  end.

Definition parse (s : string) : option (gmap string bool) :=
  match s with
  | String "{" (String "}" EmptyString) => Some ∅
  | String "{" r => option_map list_to_map (parseMembers (String.length r) r)
  | _ => None
  end.

(** Tuesday 3 November 2026, 17:00, five hours behind UTC. *)
Definition env : Env :=
  {| toLowerCase := asciiLower;
     getCurrentDay := "Tuesday";
     getCurrentTime := "1700";
     currentLocalDay := 20760;
     UTC := fun t => t + 18000000;
     LocalTime := fun t => t - 18000000;
     JSON_stringify := stringify;
     JSON_parse := parse |}.

Definition weekdays (o c : string) : gmap string Hours :=
  list_to_map ((fun day => (day, {| open := o; close := c |})) <$>
    ["Monday"; "Tuesday"; "Wednesday"; "Thursday"; "Friday"]).

Definition bakery : Store := {| name := "Bloomfield Bakery"; hours := weekdays "0900" "1700" |}.
Definition grocer : Store := {| name := "Liberty Grocer"; hours := weekdays "0800" "2100" |}.
Definition market : Store :=
  {| name := "Saturday Market";
     hours := {[ "Saturday" := {| open := "0700"; close := "1300" |} ]} |}.

Definition cafe : Store :=
  {| name := "Corner Cafe";
     hours := {[ "Monday" := {| open := "0700"; close := "1700" |};
                 "Tuesday" := {| open := "0700"; close := "2100" |} ]} |}.
Definition diner : Store :=
  {| name := "Main Street Diner";
     hours := {[ "Monday" := {| open := "0700"; close := "1800" |};
                 "Tuesday" := {| open := "0700"; close := "2000" |} ]} |}.

Definition world : World :=
  {| storeData := [bakery; grocer]; localStorage := ∅ |}.

Definition worldWithMarket : World :=
  {| storeData := [bakery; market; grocer]; localStorage := ∅ |}.

Definition openNow : WithFavorites.State :=
  {| WithFavorites.search := EmptyString;
     WithFavorites.dayFilter := "Current Day";
     WithFavorites.openFilter := "Open Now";
     WithFavorites.onlyFavs := "All";
     WithFavorites.favorites := ∅ |}.

(** The state of the first render. *)
Definition mounted : WithFavorites.State :=
  {| WithFavorites.search := EmptyString;
     WithFavorites.dayFilter := "Current Day";
     WithFavorites.openFilter := "All";
     WithFavorites.onlyFavs := "All";
     WithFavorites.favorites := ∅ |}.

Definition openNow' : NoFavorites.State :=
  {| NoFavorites.search := EmptyString;
     NoFavorites.dayFilter := "Current Day";
     NoFavorites.openFilter := "Open Now" |}.

(** A browser with two cached pages and a network that answers every
    request. *)
Definition browser : ServiceWorker.Browser string string :=
  {| ServiceWorker.caches_match := fun url =>
       ServiceWorker.Fulfilled
         ((list_to_map [("/", "cached index"); ("/index.html", "cached index")]
             : gmap string string) !! url);
     ServiceWorker.fetch := fun url => ServiceWorker.Fulfilled ("fetched " +:+ url) |}.

(** Only the bakery is a favorite and the "Favorites" filter is on. *)
Definition favoritesOnly : WithFavorites.State :=
  {| WithFavorites.search := EmptyString;
     WithFavorites.dayFilter := "Current Day";
     WithFavorites.openFilter := "All";
     WithFavorites.onlyFavs := "Favorites";
     WithFavorites.favorites := {[ "Bloomfield Bakery" := true ]} |}.

(** A bar open from 22:00 to 02:00, an entry with an empty opening time,
    and a store without hours. *)
Definition bar : Store :=
  {| name := "Night Owl Bar";
     hours := {[ "Tuesday" := {| open := "2200"; close := "0200" |} ]} |}.
Definition kiosk : Store :=
  {| name := "Corner Kiosk";
     hours := {[ "Tuesday" := {| open := EmptyString; close := "1800" |} ]} |}.


(** A second shop with the name of the bakery. *)
Definition bakeryAnnex : Store :=
  {| name := "Bloomfield Bakery"; hours := weekdays "1000" "1600" |}.

End Example.

(** * Properties *)

(** ** Running computations *)

Lemma bind_Ok {A B : Type} (m : M A) (f : A -> M B) (w w' : World) (a : A) :
  m w = (Ok a, w') -> (x <- m;; f x) w = f a w'.
Proof. intros H. unfold bind. now rewrite H. Qed.

Lemma bind_Throw {A B : Type} (m : M A) (f : A -> M B) (w w' : World) (e : exn) :
  m w = (Throw e, w') -> (x <- m;; f x) w = (Throw e, w').
Proof. intros H. unfold bind. now rewrite H. Qed.

Lemma parseTimeToJSDate_Some (env : Env) (time : string) (w : World) :
  parseTimeToJSDate env (Some time) w = (Ok (timeValue env time), w).
Proof. reflexivity. Qed.

Lemma parseTimeToJSDate_None (env : Env) (w : World) :
  parseTimeToJSDate env None w = (Throw TypeError, w).
Proof. reflexivity. Qed.

(** A callback that returns [p x] on every element and leaves the world
    alone turns [Array_filter] into [List.filter]. *)
Lemma Array_filter_pure {A : Type} (callback : A -> M bool) (p : A -> bool)
    (l : list A) (w : World) :
  (forall x, x ∈ l -> callback x w = (Ok (p x), w)) ->
  Array_filter callback l w = (Ok (List.filter p l), w).
Proof.
  induction l as [|x l IH]; intros Hcb; [reflexivity|].
  cbn [Array_filter List.filter].
  rewrite (bind_Ok _ _ w w (p x)) by (apply Hcb; left).
  rewrite (bind_Ok _ _ w w (List.filter p l)).
  - now destruct (p x).
  - apply IH. intros y Hy. apply Hcb. now right.
Qed.

Lemma Array_filter_frame {A : Type} (callback : A -> M bool) (l : list A) :
  (forall x w, snd (callback x w) = w) ->
  forall w, snd (Array_filter callback l w) = w.
Proof.
  intros Hcb. induction l as [|x l IH]; intros w; [reflexivity|].
  cbn [Array_filter]. unfold bind.
  specialize (Hcb x w). destruct (callback x w) as [[b|e] w1]; simpl in Hcb; subst w1;
    [|reflexivity].
  specialize (IH w). destruct (Array_filter callback l w) as [[r|e] w1]; simpl in IH; subst w1;
    reflexivity.
Qed.

Lemma Array_filter_sublist {A : Type} (callback : A -> M bool) (l : list A) :
  forall w w' r, Array_filter callback l w = (Ok r, w') -> r `sublist_of` l.
Proof.
  induction l as [|x l IH]; intros w w' r.
  - intros [= <- _]. constructor.
  - cbn [Array_filter]. unfold bind.
    destruct (callback x w) as [[b|e] w1]; [|discriminate].
    destruct (Array_filter callback l w1) as [[r1|e] w2] eqn:E; [|discriminate].
    intros [= <- _]. apply IH in E.
    destruct b; now constructor.
Qed.

Lemma Array_map_pure {A B : Type} (f : A -> B) (l : list A) (w : World) :
  Array_map (fun x => ret (f x)) l w = (Ok (f <$> l), w).
Proof.
  induction l as [|x l IH]; [reflexivity|].
  cbn [Array_map]. unfold bind at 1. unfold ret at 1.
  unfold bind. now rewrite IH.
Qed.

(** ** The filter callback as three predicates *)

(** The outcome of the window test: a value when the store has an entry for
    the selected day, a [TypeError] when it has none. *)
Lemma filterCallback_eq (env : Env) (st : WithFavorites.State) (store : Store) (w : World) :
  WithFavorites.filterCallback env st store w =
  (if favoritesPredicate (WithFavorites.onlyFavs st) (WithFavorites.favorites st) store &&
      searchPredicate env (WithFavorites.search st) store
   then
     if String.eqb (WithFavorites.openFilter st) "Open Now" then
       match hours store !! selectedDay env (WithFavorites.dayFilter st) with
       | Some entry => Ok (inWindow env entry)
       | None => Throw TypeError
       end
     else Ok true
   else Ok false, w).
Proof.
  unfold WithFavorites.filterCallback, favoritesPredicate, searchPredicate, selectedDay.
  destruct (String.eqb (WithFavorites.onlyFavs st) "Favorites");
    destruct (truthy (WithFavorites.favorites st !! name store));
    destruct (nonEmpty (WithFavorites.search st));
    destruct (includes _ _); cbn [andb negb]; try reflexivity;
    destruct (String.eqb (WithFavorites.openFilter st) "Open Now"); try reflexivity;
    (destruct (hours store !! _) as [entry|]; [|reflexivity]);
    cbn [fmap option_fmap option_map]; unfold bind; rewrite !parseTimeToJSDate_Some;
    unfold inWindow, ge; now destruct (le _ _ && le _ _).
Qed.

Lemma filterCallback_eq' (env : Env) (st : NoFavorites.State) (store : Store) (w : World) :
  NoFavorites.filterCallback env st store w =
  (if searchPredicate env (NoFavorites.search st) store
   then
     if String.eqb (NoFavorites.openFilter st) "Open Now" then
       match hours store !! selectedDay env (NoFavorites.dayFilter st) with
       | Some entry => Ok (inWindow env entry)
       | None => Throw TypeError
       end
     else Ok true
   else Ok false, w).
Proof.
  unfold NoFavorites.filterCallback, searchPredicate, selectedDay.
  destruct (nonEmpty (NoFavorites.search st));
    destruct (includes _ _); cbn [andb negb]; try reflexivity;
    destruct (String.eqb (NoFavorites.openFilter st) "Open Now"); try reflexivity;
    (destruct (hours store !! _) as [entry|]; [|reflexivity]);
    cbn [fmap option_fmap option_map]; unfold bind; rewrite !parseTimeToJSDate_Some;
    unfold inWindow, ge; now destruct (le _ _ && le _ _).
Qed.

(** ** The open-now window *)

Lemma inWindow_closed (env : Env) (entry : Hours) (w : World) :
  inWindow env entry = true <-> nowInClosedWindow env entry w.
Proof.
  unfold inWindow, nowInClosedWindow. rewrite !parseTimeToJSDate_Some.
  rewrite andb_true_iff. split.
  - intros [H1 H2].
    destruct (timeValue env (open entry)) as [|tO]; [discriminate|].
    destruct (timeValue env (getCurrentTime env)) as [|tN]; [discriminate|].
    destruct (timeValue env (close entry)) as [|tC]; [discriminate|].
    apply Z.leb_le in H1, H2. now exists tO, tN, tC.
  - intros (tO & tN & tC & [= ->] & [= ->] & [= ->] & H1 & H2).
    cbn [le]. now rewrite !Z.leb_le.
Qed.

(** C1, as amended: under the "Open Now" filter a store that has an hours
    entry for the selected day (and passes the other two predicates) is
    kept exactly when parsed open <= parsed now and parsed now <= parsed
    close: the window is closed at the closing time. Both versions of the
    component agree. *)
Theorem open_now_keeps_closed_window (env : Env) (store : Store) (entry : Hours)
    (search dayFilter onlyFavs : string) (favorites : gmap string bool) (w : World) :
  hours store !! selectedDay env dayFilter = Some entry ->
  favoritesPredicate onlyFavs favorites store = true ->
  searchPredicate env search store = true ->
  (exists kept : bool,
      WithFavorites.filterCallback env
        {| WithFavorites.search := search;
           WithFavorites.dayFilter := dayFilter;
           WithFavorites.openFilter := "Open Now";
           WithFavorites.onlyFavs := onlyFavs;
           WithFavorites.favorites := favorites |} store w = (Ok kept, w) /\
      (kept = true <-> nowInClosedWindow env entry w)) /\
  (exists kept : bool,
      NoFavorites.filterCallback env
        {| NoFavorites.search := search;
           NoFavorites.dayFilter := dayFilter;
           NoFavorites.openFilter := "Open Now" |} store w = (Ok kept, w) /\
      (kept = true <-> nowInClosedWindow env entry w)).
Proof.
  intros Hentry Hfav Hsearch. split; exists (inWindow env entry).
  - rewrite filterCallback_eq. cbn. rewrite Hfav, Hsearch, Hentry.
    split; [reflexivity | apply inWindow_closed].
  - rewrite filterCallback_eq'. cbn. rewrite Hsearch, Hentry.
    split; [reflexivity | apply inWindow_closed].
Qed.

(** The bakery closes at 17:00 and it is 17:00. *)
Lemma open_now_keeps_closed_window_witness :
  (exists kept : bool,
      WithFavorites.filterCallback Example.env Example.openNow Example.bakery Example.world
        = (Ok kept, Example.world) /\
      (kept = true <->
       nowInClosedWindow Example.env {| open := "0900"; close := "1700" |} Example.world)) /\
  (exists kept : bool,
      NoFavorites.filterCallback Example.env Example.openNow' Example.bakery Example.world
        = (Ok kept, Example.world) /\
      (kept = true <->
       nowInClosedWindow Example.env {| open := "0900"; close := "1700" |} Example.world)).
Proof.
  apply (open_now_keeps_closed_window Example.env Example.bakery
           {| open := "0900"; close := "1700" |} EmptyString "Current Day" "All" ∅
           Example.world); reflexivity.
Defined.

(** C1 as stated fails at the closing time: at 17:00 the bakery, open from
    09:00 to 17:00, is kept, though now is not before the parsed close. *)
Lemma open_now_half_open_counterexample :
  WithFavorites.filterCallback Example.env Example.openNow Example.bakery Example.world
    = (Ok true, Example.world) /\
  NoFavorites.filterCallback Example.env Example.openNow' Example.bakery Example.world
    = (Ok true, Example.world) /\
  hours Example.bakery !! selectedDay Example.env "Current Day"
    = Some {| open := "0900"; close := "1700" |} /\
  ~ nowInHalfOpenWindow Example.env {| open := "0900"; close := "1700" |} Example.world.
Proof.
  repeat split; try reflexivity.
  intros (tO & tN & tC & _ & HN & HC & _ & Hlt).
  rewrite parseTimeToJSDate_Some in HN, HC.
  injection HN as HN. injection HC as HC. vm_compute in HN, HC. lia.
Qed.

(** ** Text search *)

Lemma prefix_append (t s : string) :
  String.prefix t s = true <-> exists post : string, s = t +:+ post.
Proof.
  revert s. induction t as [|a t IH]; intros [|b s]; cbn [String.prefix String.append].
  - split; [now exists EmptyString | reflexivity].
  - split; [now exists (String b s) | reflexivity].
  - split; [discriminate | intros [post Hpost]; discriminate Hpost].
  - destruct (ascii_dec a b) as [->|Hne].
    + rewrite IH. split; intros [post Hpost]; exists post.
      * now rewrite Hpost.
      * now injection Hpost.
    + split; [discriminate | intros [post Hpost]; injection Hpost as Hab _; congruence].
Qed.

(** [includes] decides [contains]. *)
Lemma includes_contains (s t : string) : includes s t = true <-> contains s t.
Proof.
  unfold contains. induction s as [|c s IH]; cbn [includes].
  - rewrite orb_false_r, prefix_append. split.
    + intros [post Hpost]. now exists EmptyString, post.
    + intros ([|? ?] & post & Hpost); [now exists post | discriminate].
  - rewrite orb_true_iff, prefix_append, IH. split.
    + intros [[post Hpost] | (pre & post & Hs)].
      * now exists EmptyString, post.
      * exists (String c pre), post. now rewrite Hs.
    + intros ([|a pre] & post & Hs).
      * left. now exists post.
      * right. exists pre, post. now injection Hs.
Qed.

Lemma nonEmpty_true (s : string) : nonEmpty s = true <-> s <> EmptyString.
Proof. destruct s; cbn; split; congruence. Qed.

(** C5: the store passes the search step exactly when its lowercased name
    contains the lowercased search string, and every store passes when the
    search string is empty; the other two predicates being passed, this
    decides whether the callback keeps the store, in both versions of the
    component. *)
Theorem search_keeps_names_containing (env : Env) (store : Store)
    (search dayFilter openFilter onlyFavs : string) (favorites : gmap string bool)
    (w : World) :
  favoritesPredicate onlyFavs favorites store = true ->
  openNowPredicate env dayFilter openFilter store = true ->
  exists kept : bool,
    WithFavorites.filterCallback env
      {| WithFavorites.search := search;
         WithFavorites.dayFilter := dayFilter;
         WithFavorites.openFilter := openFilter;
         WithFavorites.onlyFavs := onlyFavs;
         WithFavorites.favorites := favorites |} store w = (Ok kept, w) /\
    NoFavorites.filterCallback env
      {| NoFavorites.search := search;
         NoFavorites.dayFilter := dayFilter;
         NoFavorites.openFilter := openFilter |} store w = (Ok kept, w) /\
    (search <> EmptyString ->
     (kept = true <->
      contains (toLowerCase env (name store)) (toLowerCase env search))) /\
    (search = EmptyString -> kept = true).
Proof.
  intros Hfav Hopen. exists (searchPredicate env search store).
  rewrite filterCallback_eq, filterCallback_eq'. cbn. rewrite Hfav. cbn [andb].
  assert (Hgate :
    (if String.eqb openFilter "Open Now"
     then match hours store !! selectedDay env dayFilter with
          | Some entry => Ok (inWindow env entry)
          | None => Throw TypeError
          end
     else Ok true) = Ok true).
  { unfold openNowPredicate in Hopen.
    destruct (String.eqb openFilter "Open Now"); [|reflexivity].
    destruct (hours store !! _); [now rewrite Hopen | discriminate]. }
  rewrite Hgate. repeat split.
  - now destruct (searchPredicate env search store).
  - now destruct (searchPredicate env search store).
  - unfold searchPredicate. apply nonEmpty_true in H. rewrite H.
    now intros ?%includes_contains.
  - unfold searchPredicate. apply nonEmpty_true in H. rewrite H.
    now intros ?%includes_contains.
  - intros ->. reflexivity.
Qed.

Lemma search_keeps_names_containing_witness :
  exists kept : bool,
    WithFavorites.filterCallback Example.env
      {| WithFavorites.search := "BAKE";
         WithFavorites.dayFilter := "Current Day";
         WithFavorites.openFilter := "Open Now";
         WithFavorites.onlyFavs := "All";
         WithFavorites.favorites := ∅ |} Example.bakery Example.world
      = (Ok kept, Example.world) /\
    NoFavorites.filterCallback Example.env
      {| NoFavorites.search := "BAKE";
         NoFavorites.dayFilter := "Current Day";
         NoFavorites.openFilter := "Open Now" |} Example.bakery Example.world
      = (Ok kept, Example.world) /\
    ("BAKE" <> EmptyString ->
     (kept = true <->
      contains (toLowerCase Example.env (name Example.bakery))
               (toLowerCase Example.env "BAKE"))) /\
    ("BAKE" = EmptyString -> kept = true).
Proof.
  apply (search_keeps_names_containing Example.env Example.bakery
           "BAKE" "Current Day" "Open Now" "All" ∅ Example.world); reflexivity.
Defined.

(** ** The filtered list *)

(** Under [entriesPresent] the callback is the conjunction of the three
    predicates on every store of the array. *)
Lemma filterCallback_conjunction (env : Env) (st : WithFavorites.State) (w : World)
    (stores : list Store) (store : Store) :
  entriesPresent env (WithFavorites.onlyFavs st) (WithFavorites.favorites st)
    (WithFavorites.search st) (WithFavorites.dayFilter st) (WithFavorites.openFilter st)
    stores ->
  store ∈ stores ->
  WithFavorites.filterCallback env st store w =
  (Ok (favoritesPredicate (WithFavorites.onlyFavs st) (WithFavorites.favorites st) store &&
       searchPredicate env (WithFavorites.search st) store &&
       openNowPredicate env (WithFavorites.dayFilter st) (WithFavorites.openFilter st) store),
   w).
Proof.
  intros Hpresent Hin. rewrite filterCallback_eq. unfold openNowPredicate.
  specialize (Hpresent store Hin).
  destruct (favoritesPredicate _ _ store); [|reflexivity].
  destruct (searchPredicate env _ store); [|reflexivity].
  cbn [andb].
  destruct (String.eqb (WithFavorites.openFilter st) "Open Now") eqn:Hopen; [|reflexivity].
  apply String.eqb_eq in Hopen.
  destruct (Hpresent Hopen eq_refl eq_refl) as [entry ->]. reflexivity.
Qed.

Lemma filterCallback_frame (env : Env) (st : WithFavorites.State) (store : Store) (w : World) :
  snd (WithFavorites.filterCallback env st store w) = w.
Proof. now rewrite filterCallback_eq. Qed.

Lemma decorated_inj (favorites : gmap string bool) (s1 s2 : Store) :
  decorated favorites s1 = decorated favorites s2 -> s1 = s2.
Proof. destruct s1, s2. unfold decorated. cbn. now intros [= -> ->]. Qed.

(** Under [entriesPresent] the filter step returns. *)
Lemma Array_filter_total (env : Env) (st : WithFavorites.State)
    (w : World) :
  entriesPresent env (WithFavorites.onlyFavs st) (WithFavorites.favorites st)
    (WithFavorites.search st) (WithFavorites.dayFilter st) (WithFavorites.openFilter st)
    (storeData w) ->
  exists kept : list Store,
    Array_filter (WithFavorites.filterCallback env st) (storeData w) w = (Ok kept, w).
Proof.
  intros Hpresent. eexists. apply Array_filter_pure. intros store Hin.
  now apply (filterCallback_conjunction env st w (storeData w)).
Qed.

(** The conjunction of the three predicates. *)
Lemma filteredData_eq (env : Env) (st : WithFavorites.State) (w : World) :
  entriesPresent env (WithFavorites.onlyFavs st) (WithFavorites.favorites st)
    (WithFavorites.search st) (WithFavorites.dayFilter st) (WithFavorites.openFilter st)
    (storeData w) ->
  WithFavorites.filteredData env st w =
  (Ok (decorated (WithFavorites.favorites st) <$>
       List.filter (fun store =>
         favoritesPredicate (WithFavorites.onlyFavs st) (WithFavorites.favorites st) store &&
         searchPredicate env (WithFavorites.search st) store &&
         openNowPredicate env (WithFavorites.dayFilter st) (WithFavorites.openFilter st)
           store) (storeData w)), w).
Proof.
  intros Hpresent. unfold WithFavorites.filteredData.
  rewrite (bind_Ok _ _ w w (storeData w)) by reflexivity.
  erewrite bind_Ok.
  - apply (Array_map_pure (decorated (WithFavorites.favorites st))).
  - apply Array_filter_pure. intros store Hin.
    now apply (filterCallback_conjunction env st w (storeData w)).
Qed.

Lemma filterCallback_outcome (env : Env) (st : WithFavorites.State) (store : Store) (w : World) :
  (exists kept : bool, WithFavorites.filterCallback env st store w = (Ok kept, w)) \/
  WithFavorites.filterCallback env st store w = (Throw TypeError, w).
Proof.
  rewrite filterCallback_eq.
  destruct (_ && _); [|left; now eexists].
  destruct (String.eqb _ _); [|left; now eexists].
  destruct (hours store !! _); [left; now eexists | now right].
Qed.

Lemma Array_filter_throws {A : Type} (callback : A -> M bool) (l : list A) (w : World)
    (x : A) :
  (forall y, (exists kept : bool, callback y w = (Ok kept, w)) \/
             callback y w = (Throw TypeError, w)) ->
  x ∈ l ->
  callback x w = (Throw TypeError, w) ->
  Array_filter callback l w = (Throw TypeError, w).
Proof.
  intros Hout Hin Hx. induction l as [|y l IH]; [now apply elem_of_nil in Hin|].
  cbn [Array_filter].
  destruct (Hout y) as [[kept Hy]|Hy].
  - rewrite (bind_Ok _ _ w w kept Hy).
    apply elem_of_cons in Hin as [->|Hin]; [congruence|].
    now rewrite (bind_Throw _ _ w w TypeError (IH Hin)).
  - now rewrite (bind_Throw _ _ w w TypeError Hy).
Qed.

(** A store that reaches the window test without an entry makes the
    callback, and with it the whole recomputation, throw. *)
Lemma filterCallback_missing (env : Env) (st : WithFavorites.State) (store : Store)
    (w : World) :
  WithFavorites.openFilter st = "Open Now" ->
  hours store !! selectedDay env (WithFavorites.dayFilter st) = None ->
  favoritesPredicate (WithFavorites.onlyFavs st) (WithFavorites.favorites st) store = true ->
  searchPredicate env (WithFavorites.search st) store = true ->
  WithFavorites.filterCallback env st store w = (Throw TypeError, w).
Proof.
  intros Hopen Hentry Hfav Hsearch.
  rewrite filterCallback_eq. now rewrite Hfav, Hsearch, Hopen, Hentry.
Qed.

Lemma filteredData_throws (env : Env) (st : WithFavorites.State) (store : Store)
    (w : World) :
  store ∈ storeData w ->
  WithFavorites.filterCallback env st store w = (Throw TypeError, w) ->
  WithFavorites.filteredData env st w = (Throw TypeError, w).
Proof.
  intros Hin Hthrow. unfold WithFavorites.filteredData.
  rewrite (bind_Ok _ _ w w (storeData w)) by reflexivity.
  apply bind_Throw. apply (Array_filter_throws _ _ _ store); [|exact Hin|exact Hthrow].
  intros y. apply filterCallback_outcome.
Qed.

Lemma filteredData_returns_entriesPresent (env : Env) (st : WithFavorites.State)
    (w : World) (rows : list WithFavorites.Row) :
  fst (WithFavorites.filteredData env st w) = Ok rows ->
  entriesPresent env (WithFavorites.onlyFavs st) (WithFavorites.favorites st)
    (WithFavorites.search st) (WithFavorites.dayFilter st) (WithFavorites.openFilter st)
    (storeData w).
Proof.
  intros Hrows store Hin Hopen Hfav Hsearch.
  destruct (hours store !! _) as [entry|] eqn:Hentry; [now eexists|].
  rewrite (filteredData_throws env st store w Hin) in Hrows; [discriminate|].
  now apply filterCallback_missing.
Qed.

(** The list that is returned: whenever [filteredData] returns a list, a
    store of the array appears in it (with its favorite flag) exactly when
    it passes the favorites predicate, the search predicate and the open-now
    predicate; and it returns a list whenever no store reaches the window
    test without an entry for the selected day. *)
Theorem filteredData_conjunction_of_predicates (env : Env) (st : WithFavorites.State)
    (w : World) :
  (forall rows : list WithFavorites.Row,
      fst (WithFavorites.filteredData env st w) = Ok rows ->
      forall store : Store,
        store ∈ storeData w ->
        (decorated (WithFavorites.favorites st) store ∈ rows <->
         favoritesPredicate (WithFavorites.onlyFavs st) (WithFavorites.favorites st) store
           = true /\
         searchPredicate env (WithFavorites.search st) store = true /\
         openNowPredicate env (WithFavorites.dayFilter st) (WithFavorites.openFilter st)
           store = true)) /\
  (entriesPresent env (WithFavorites.onlyFavs st) (WithFavorites.favorites st)
     (WithFavorites.search st) (WithFavorites.dayFilter st) (WithFavorites.openFilter st)
     (storeData w) ->
   exists rows : list WithFavorites.Row,
     WithFavorites.filteredData env st w = (Ok rows, w)).
Proof.
  split.
  - intros rows Hrows store Hin.
    pose proof (filteredData_returns_entriesPresent env st w rows Hrows) as Hpresent.
    rewrite (filteredData_eq env st w Hpresent) in Hrows. injection Hrows as <-.
    rewrite list_elem_of_fmap. split.
    + intros (store' & Heq & Hin'). apply decorated_inj in Heq. subst store'.
      apply list_elem_of_In, filter_In in Hin' as [_ Hp].
      now apply andb_true_iff in Hp as [[? ?]%andb_true_iff ?].
    + intros (Hf & Hs & Ho). exists store. split; [reflexivity|].
      apply list_elem_of_In, filter_In. split; [now apply list_elem_of_In|].
      now rewrite Hf, Hs, Ho.
  - intros Hpresent. eexists. now apply filteredData_eq.
Qed.

Lemma entriesPresent_example :
  entriesPresent Example.env "All" ∅ EmptyString "Current Day" "Open Now"
    (storeData Example.world).
Proof.
  intros store Hin _ _ _. cbn in Hin.
  apply elem_of_cons in Hin as [->|Hin]; [now eexists|].
  apply elem_of_cons in Hin as [->|Hin]; [now eexists|].
  now apply elem_of_nil in Hin.
Qed.

Lemma filteredData_conjunction_of_predicates_witness :
  exists rows : list WithFavorites.Row,
    WithFavorites.filteredData Example.env Example.openNow Example.world
      = (Ok rows, Example.world) /\
    forall store : Store,
      store ∈ storeData Example.world ->
      (decorated ∅ store ∈ rows <->
       favoritesPredicate "All" ∅ store = true /\
       searchPredicate Example.env EmptyString store = true /\
       openNowPredicate Example.env "Current Day" "Open Now" store = true).
Proof.
  destruct (filteredData_conjunction_of_predicates Example.env Example.openNow Example.world)
    as [Hiff Htotal].
  destruct (Htotal entriesPresent_example) as [rows Hrows].
  exists rows. split; [exact Hrows|].
  apply Hiff. now rewrite Hrows.
Defined.

(** C2, what the code does: the list is not the conjunction of three
    independent predicates when a store has no hours entry for the selected
    day. On a Tuesday at 17:00 with "Open Now" on, the bakery passes the
    favorites, search and open-now predicates, yet it appears in no list:
    the market, which has hours for Saturday only, makes the recomputation
    end with a [TypeError]. Whether it does depends on the search predicate:
    with "bakery" typed in the search box the market is rejected before its
    hours are read, and the list is returned with the bakery in it. *)
Theorem filteredData_throws_though_store_passes :
  Example.bakery ∈ storeData Example.worldWithMarket /\
  favoritesPredicate "All" ∅ Example.bakery = true /\
  searchPredicate Example.env EmptyString Example.bakery = true /\
  openNowPredicate Example.env "Current Day" "Open Now" Example.bakery = true /\
  WithFavorites.filteredData Example.env Example.openNow Example.worldWithMarket
    = (Throw TypeError, Example.worldWithMarket) /\
  WithFavorites.filteredData Example.env (Table.setSearch "bakery" Example.openNow)
    Example.worldWithMarket
    = (Ok [decorated ∅ Example.bakery], Example.worldWithMarket).
Proof.
  split; [cbn; apply elem_of_cons; now left|].
  repeat split.
Qed.

Lemma filteredData_frame (env : Env) (st : WithFavorites.State) (w : World) :
  snd (WithFavorites.filteredData env st w) = w.
Proof.
  assert (Hframe : snd (Array_filter (WithFavorites.filterCallback env st) (storeData w) w) = w).
  { apply Array_filter_frame. intros. apply filterCallback_frame. }
  unfold WithFavorites.filteredData.
  rewrite (bind_Ok _ _ w w (storeData w)) by reflexivity.
  destruct (Array_filter _ (storeData w) w) as [[kept|e] w1] eqn:Hfilter;
    cbn [snd] in Hframe; subst w1.
  - rewrite (bind_Ok _ _ w w kept Hfilter).
    now rewrite (Array_map_pure (decorated (WithFavorites.favorites st)) kept w
                 : Array_map (WithFavorites.mapCallback st) kept w = _).
  - now rewrite (bind_Throw _ _ w w e Hfilter).
Qed.

(** C8: recomputing the filtered list leaves the world, and with it the
    static store array, as it was, whether the computation returns or
    throws; a returned list is an order-preserving sublist of [storeData],
    each kept store decorated with its favorite flag; and a list is
    returned whenever no store reaches the window test without an entry for
    the selected day. *)
Theorem filteredData_sublist_and_frame (env : Env) (st : WithFavorites.State) (w : World) :
  snd (WithFavorites.filteredData env st w) = w /\
  (forall rows : list WithFavorites.Row,
      fst (WithFavorites.filteredData env st w) = Ok rows ->
      exists kept : list Store,
        kept `sublist_of` storeData w /\
        rows = decorated (WithFavorites.favorites st) <$> kept) /\
  (entriesPresent env (WithFavorites.onlyFavs st) (WithFavorites.favorites st)
     (WithFavorites.search st) (WithFavorites.dayFilter st) (WithFavorites.openFilter st)
     (storeData w) ->
   exists rows : list WithFavorites.Row,
     fst (WithFavorites.filteredData env st w) = Ok rows).
Proof.
  assert (Hframe : snd (Array_filter (WithFavorites.filterCallback env st) (storeData w) w) = w).
  { apply Array_filter_frame. intros. apply filterCallback_frame. }
  unfold WithFavorites.filteredData.
  rewrite (bind_Ok _ _ w w (storeData w)) by reflexivity.
  destruct (Array_filter _ (storeData w) w) as [[kept|e] w1] eqn:Hfilter;
    cbn [snd] in Hframe; subst w1.
  - rewrite (bind_Ok _ _ w w kept Hfilter).
    replace (Array_map (WithFavorites.mapCallback st) kept w)
      with (Ok (decorated (WithFavorites.favorites st) <$> kept), w)
      by (symmetry; apply (Array_map_pure (decorated (WithFavorites.favorites st)))).
    cbn [fst snd]. split; [reflexivity|]. split.
    + intros rows [= <-]. exists kept. split; [|reflexivity].
      eapply Array_filter_sublist, Hfilter.
    + intros _. now eexists.
  - rewrite (bind_Throw _ _ w w e Hfilter). cbn [fst snd].
    split; [reflexivity|]. split; [discriminate|].
    intros Hpresent.
    destruct (Array_filter_total env st w Hpresent) as [kept' Heq].
    congruence.
Qed.

Lemma filteredData_sublist_and_frame_witness :
  snd (WithFavorites.filteredData Example.env Example.openNow Example.world) = Example.world /\
  exists (rows : list WithFavorites.Row) (kept : list Store),
    fst (WithFavorites.filteredData Example.env Example.openNow Example.world) = Ok rows /\
    kept `sublist_of` storeData Example.world /\
    rows = decorated ∅ <$> kept.
Proof.
  destruct (filteredData_sublist_and_frame Example.env Example.openNow Example.world)
    as (Hframe & Hsub & Htotal).
  split; [exact Hframe|].
  destruct (Htotal entriesPresent_example) as [rows Hrows].
  destruct (Hsub rows Hrows) as (kept & Hkept & Heq).
  now exists rows, kept.
Defined.

(** ** A store without an entry for the selected day *)

(** C9, what the code does: under the "Open Now" filter a store that has
    no hours entry for the selected day, and passes the other two
    predicates, is not excluded; the [{}] fallback leaves [open] undefined,
    [parseTimeToJSDate] throws a [TypeError] on it, and the whole
    recomputation of the filtered list ends with that exception. *)
Theorem missing_entry_throws (env : Env) (store : Store)
    (search dayFilter onlyFavs : string) (favorites : gmap string bool) (w : World) :
  hours store !! selectedDay env dayFilter = None ->
  favoritesPredicate onlyFavs favorites store = true ->
  searchPredicate env search store = true ->
  store ∈ storeData w ->
  let st := {| WithFavorites.search := search;
               WithFavorites.dayFilter := dayFilter;
               WithFavorites.openFilter := "Open Now";
               WithFavorites.onlyFavs := onlyFavs;
               WithFavorites.favorites := favorites |} in
  WithFavorites.filterCallback env st store w = (Throw TypeError, w) /\
  WithFavorites.filteredData env st w = (Throw TypeError, w).
Proof.
  intros Hentry Hfav Hsearch Hin st.
  assert (Hthrow : WithFavorites.filterCallback env st store w = (Throw TypeError, w))
    by now apply filterCallback_missing.
  split; [exact Hthrow|]. now apply (filteredData_throws env st store w).
Qed.

(** The Saturday market has no entry for Tuesday. *)
Lemma missing_entry_throws_witness :
  WithFavorites.filterCallback Example.env Example.openNow Example.market
    Example.worldWithMarket = (Throw TypeError, Example.worldWithMarket) /\
  WithFavorites.filteredData Example.env Example.openNow Example.worldWithMarket
    = (Throw TypeError, Example.worldWithMarket).
Proof.
  apply (missing_entry_throws Example.env Example.market EmptyString "Current Day" "All" ∅
           Example.worldWithMarket); try reflexivity.
  cbn. rewrite !elem_of_cons. right. now left.
Defined.

(** ** Parsing HHMM strings *)

Lemma parseInt_two_digits (a b : ascii) :
  isDigit a = true -> isDigit b = true ->
  parseInt (String a (String b EmptyString)) = Num (10 * decimal a + decimal b).
Proof.
  intros Ha Hb.
  destruct a as [[] [] [] [] [] [] [] []]; vm_compute in Ha; try discriminate Ha;
    destruct b as [[] [] [] [] [] [] [] []]; vm_compute in Hb; try discriminate Hb;
    reflexivity.
Qed.

Lemma isDigit_bounds (c : ascii) : isDigit c = true -> 0 <= decimal c <= 9.
Proof. unfold isDigit. rewrite andb_true_iff, !Z.leb_le. tauto. Qed.

(** The shape of an HHMM string. *)
Lemma isHHMM_inv (s : string) :
  isHHMM s = true ->
  exists a b c d : ascii,
    s = String a (String b (String c (String d EmptyString))) /\
    isDigit a = true /\ isDigit b = true /\ isDigit c = true /\ isDigit d = true /\
    hourOf s < 24 /\ minuteOf s < 60.
Proof.
  destruct s as [|a [|b [|c [|d [|? ?]]]]]; try discriminate.
  unfold isHHMM. rewrite !andb_true_iff, !Z.ltb_lt.
  intros [[[[[? ?] ?] ?] ?] ?]. now exists a, b, c, d.
Qed.

Lemma timeValue_HHMM (env : Env) (s : string) :
  isHHMM s = true ->
  timeValue env s =
  Num (UTC env (MakeDate (currentLocalDay env) (MakeTime (hourOf s) (minuteOf s)))).
Proof.
  intros (a & b & c & d & -> & Ha & Hb & Hc & Hd & _)%isHHMM_inv.
  unfold timeValue.
  change (substring (String a (String b (String c (String d EmptyString)))) 0 2)
    with (String a (String b EmptyString)).
  change (substring (String a (String b (String c (String d EmptyString)))) 2 4)
    with (String c (String d EmptyString)).
  now rewrite !parseInt_two_digits.
Qed.


Lemma decimal_compare (a b : ascii) :
  Ascii.compare a b = (decimal a ?= decimal b).
Proof.
  unfold Ascii.compare, decimal.
  destruct (N.compare_spec (N_of_ascii a) (N_of_ascii b)); symmetry;
    [apply Z.compare_eq_iff | apply Z.compare_lt_iff | apply Z.compare_gt_iff]; lia.
Qed.

(** On HHMM strings the order of the time values is the order of the
    digits read from left to right. *)
Lemma MakeTime_compare (day h1 m1 h2 m2 : Z) :
  0 <= m1 < 60 -> 0 <= m2 < 60 ->
  (MakeDate day (MakeTime h1 m1) ?= MakeDate day (MakeTime h2 m2)) =
  match h1 ?= h2 with
  | Eq => m1 ?= m2
  | c => c
  end.
Proof.
  intros Hm1 Hm2. unfold MakeDate, MakeTime, msPerDay, msPerHour, msPerMinute.
  destruct (Z.compare_spec h1 h2) as [->|Hlt|Hgt].
  - destruct (Z.compare_spec m1 m2) as [->|Hlt|Hgt];
      [apply Z.compare_eq_iff | apply Z.compare_lt_iff | apply Z.compare_gt_iff]; lia.
  - apply Z.compare_lt_iff. lia.
  - apply Z.compare_gt_iff. lia.
Qed.

Lemma two_digits_compare (a1 b1 a2 b2 : Z) :
  0 <= b1 <= 9 -> 0 <= b2 <= 9 ->
  (10 * a1 + b1 ?= 10 * a2 + b2) =
  match a1 ?= a2 with
  | Eq => b1 ?= b2
  | c => c
  end.
Proof.
  intros Hb1 Hb2.
  destruct (Z.compare_spec a1 a2) as [->|Hlt|Hgt].
  - destruct (Z.compare_spec b1 b2) as [->|Hlt|Hgt];
      [apply Z.compare_eq_iff | apply Z.compare_lt_iff | apply Z.compare_gt_iff]; lia.
  - apply Z.compare_lt_iff. lia.
  - apply Z.compare_gt_iff. lia.
Qed.

Lemma compare_shift (a b c : Z) : (a - c ?= b - c) = (a ?= b).
Proof.
  destruct (Z.compare_spec a b) as [->|Hlt|Hgt];
    [apply Z.compare_eq_iff | apply Z.compare_lt_iff | apply Z.compare_gt_iff]; lia.
Qed.

(** A time of day lies in the current local day. *)
Lemma MakeDate_today (day h m : Z) :
  0 <= h < 24 -> 0 <= m < 60 ->
  MakeDate day 0 <= MakeDate day (MakeTime h m) < MakeDate (day + 1) 0.
Proof.
  intros Hh Hm. unfold MakeDate, MakeTime, msPerDay, msPerHour, msPerMinute. lia.
Qed.

(** Under a fixed offset the time value of an HHMM string is its local time
    less the offset, and its local time is read back from it. *)
Lemma timeValue_HHMM_fixed (env : Env) (s : string) :
  offsetFixed env 1 ->
  isHHMM s = true ->
  exists offset : Z,
    (forall s' : string, isHHMM s' = true ->
       timeValue env s' =
       Num (MakeDate (currentLocalDay env) (MakeTime (hourOf s') (minuteOf s')) - offset)) /\
    LocalTime env
      (MakeDate (currentLocalDay env) (MakeTime (hourOf s) (minuteOf s)) - offset)
    = MakeDate (currentLocalDay env) (MakeTime (hourOf s) (minuteOf s)).
Proof.
  intros [offset Hfixed] Hs. exists offset.
  assert (Hrange : forall s', isHHMM s' = true ->
    MakeDate (currentLocalDay env) 0
      <= MakeDate (currentLocalDay env) (MakeTime (hourOf s') (minuteOf s'))
      < MakeDate (currentLocalDay env + 1) 0).
  { intros s' (a & b & c & d & -> & Ha & Hb & Hc & Hd & Hh & Hm)%isHHMM_inv.
    cbn [hourOf minuteOf] in *.
    apply isDigit_bounds in Ha, Hb, Hc, Hd.
    apply MakeDate_today; lia. }
  split.
  - intros s' Hs'. rewrite timeValue_HHMM by exact Hs'.
    now rewrite (proj1 (Hfixed _ (Hrange s' Hs'))).
  - exact (proj2 (Hfixed _ (Hrange s Hs))).
Qed.

(** The digits of two HHMM strings order their local times. *)
Lemma MakeDate_compare_HHMM (day : Z) (s1 s2 : string) :
  isHHMM s1 = true ->
  isHHMM s2 = true ->
  (MakeDate day (MakeTime (hourOf s1) (minuteOf s1)) ?=
   MakeDate day (MakeTime (hourOf s2) (minuteOf s2))) = String.compare s1 s2.
Proof.
  intros H1 H2.
  apply isHHMM_inv in H1 as (a1 & b1 & c1 & d1 & -> & Ha1 & Hb1 & Hc1 & Hd1 & Hh1 & Hm1).
  apply isHHMM_inv in H2 as (a2 & b2 & c2 & d2 & -> & Ha2 & Hb2 & Hc2 & Hd2 & Hh2 & Hm2).
  cbn [hourOf minuteOf] in *.
  apply isDigit_bounds in Ha1, Hb1, Hc1, Hd1, Ha2, Hb2, Hc2, Hd2.
  rewrite MakeTime_compare by lia.
  rewrite !two_digits_compare by lia.
  cbn [String.compare]. rewrite !decimal_compare.
  destruct (decimal a1 ?= decimal a2); try reflexivity.
  destruct (decimal b1 ?= decimal b2); try reflexivity.
  destruct (decimal c1 ?= decimal c2); try reflexivity.
  destruct (decimal d1 ?= decimal d2); reflexivity.
Qed.

Lemma offsetFixed_example (days : Z) : offsetFixed Example.env days.
Proof. exists (-18000000). intros t _. cbn. split; lia. Qed.




(** ** Sorting by closing time *)

(** The comparator body, given the [dayFilter] its closure reads: for two
    rows that each have an hours entry for that day, it returns a negative
    number when the parsed closing time of the first is earlier than that of
    the second, zero when the two are equal, and a positive number when it
    is later; both versions of the component agree. *)
Lemma sortingFn_orders_by_closing_time (env : Env) (dayFilter : string)
    (a b : Store) (entryA entryB : Hours) (favorites : gmap string bool) (w : World) :
  hours a !! selectedDay env dayFilter = Some entryA ->
  hours b !! selectedDay env dayFilter = Some entryB ->
  exists aClosing bClosing result : number,
    parseTimeToJSDate env (Some (close entryA)) w = (Ok aClosing, w) /\
    parseTimeToJSDate env (Some (close entryB)) w = (Ok bClosing, w) /\
    WithFavorites.sortingFn env dayFilter (decorated favorites a) (decorated favorites b) w
      = (Ok result, w) /\
    NoFavorites.sortingFn env dayFilter a b w = (Ok result, w) /\
    (lt aClosing bClosing = true -> lt result (Num 0) = true) /\
    (strict_eq aClosing bClosing = true -> result = Num 0) /\
    (lt bClosing aClosing = true -> lt (Num 0) result = true).
Proof.
  intros HA HB.
  exists (timeValue env (close entryA)), (timeValue env (close entryB)),
         (sub (timeValue env (close entryA)) (timeValue env (close entryB))).
  unfold WithFavorites.sortingFn, NoFavorites.sortingFn, selectedDay in *.
  cbn [Array_map decorated WithFavorites.row_hours]. unfold bind, ret.
  rewrite HA, HB. cbn [fmap option_fmap option_map].
  rewrite !parseTimeToJSDate_Some.
  repeat (split; [reflexivity|]).
  destruct (timeValue env (close entryA)) as [|x], (timeValue env (close entryB)) as [|y];
    cbn [lt strict_eq sub]; repeat split; try discriminate.
  - rewrite !Z.ltb_lt. lia.
  - rewrite Z.eqb_eq. intros ->. now rewrite Z.sub_diag.
  - rewrite !Z.ltb_lt. lia.
Qed.

(** A change of the day selector alone does not rebuild the memoised
    column definitions: the comparator keeps reading the day filter of the
    render that built it. *)
Lemma columns_kept_after_setDayFilter (previous : option WithFavorites.Columns)
    (st : WithFavorites.State) (value : string) :
  let columns := WithFavorites.useMemo_columns previous st in
  WithFavorites.useMemo_columns (Some columns) (WithFavorites.setDayFilter value st)
    = columns.
Proof.
  cbn zeta. unfold WithFavorites.useMemo_columns at 1.
  cbn [WithFavorites.setDayFilter WithFavorites.favorites].
  case_decide as Hdep; [reflexivity|]. exfalso. apply Hdep.
  unfold WithFavorites.useMemo_columns.
  destruct previous as [memo|]; [|reflexivity].
  now case_decide.
Qed.

(** C6, what the code does in the version with favorites: the component
    is rendered on a Tuesday with the selector on "Current Day" and the
    user then selects "Monday". On Monday the cafe closes at 17:00 and the
    diner at 18:00, so the comparator should return a negative number; it
    still compares the Tuesday entries (21:00 and 20:00) and returns a
    positive one. The version without favorites, which rebuilds its columns
    at every render, returns the negative number. *)
Theorem hours_comparator_reads_stale_day :
  let st := WithFavorites.setDayFilter "Monday" Example.mounted in
  let columns :=
    WithFavorites.useMemo_columns
      (Some (WithFavorites.useMemo_columns None Example.mounted)) st in
  let st' :=
    {| NoFavorites.search := EmptyString;
       NoFavorites.dayFilter := "Monday";
       NoFavorites.openFilter := "All" |} in
  hours Example.cafe !! selectedDay Example.env (WithFavorites.dayFilter st)
    = Some {| open := "0700"; close := "1700" |} /\
  hours Example.diner !! selectedDay Example.env (WithFavorites.dayFilter st)
    = Some {| open := "0700"; close := "1800" |} /\
  (exists aClosing bClosing : number,
      parseTimeToJSDate Example.env (Some "1700") Example.world
        = (Ok aClosing, Example.world) /\
      parseTimeToJSDate Example.env (Some "1800") Example.world
        = (Ok bClosing, Example.world) /\
      lt aClosing bClosing = true) /\
  WithFavorites.columns_sortingFn Example.env columns
    (decorated ∅ Example.cafe) (decorated ∅ Example.diner) Example.world
    = (Ok (Num 3600000), Example.world) /\
  NoFavorites.columns_sortingFn Example.env st' Example.cafe Example.diner Example.world
    = (Ok (Num (-3600000)), Example.world).
Proof.
  cbn zeta. split; [reflexivity|]. split; [reflexivity|]. split.
  - do 2 eexists. split; [reflexivity|]. split; reflexivity.
  - split; reflexivity.
Qed.

(** ** The fetch handler *)

(** C7: the fetch handler is cache-first: it responds with the cached
    response when the cache holds a match for the request, and with the
    outcome of fetching the request from the network when it holds none. *)
Theorem onFetch_cache_first {Request Response : Type}
    (browser : ServiceWorker.Browser Request Response) (request : Request) :
  (forall cached : Response,
      ServiceWorker.caches_match browser request = ServiceWorker.Fulfilled (Some cached) ->
      ServiceWorker.onFetch browser request = ServiceWorker.Fulfilled cached) /\
  (ServiceWorker.caches_match browser request = ServiceWorker.Fulfilled None ->
   ServiceWorker.onFetch browser request = ServiceWorker.fetch browser request).
Proof.
  unfold ServiceWorker.onFetch. split.
  - intros cached ->. reflexivity.
  - intros ->. reflexivity.
Qed.

Lemma onFetch_cache_first_witness :
  ServiceWorker.onFetch Example.browser "/index.html" = ServiceWorker.Fulfilled "cached index" /\
  ServiceWorker.onFetch Example.browser "/logo.png"
    = ServiceWorker.fetch Example.browser "/logo.png".
Proof.
  split.
  - apply (onFetch_cache_first Example.browser "/index.html"). reflexivity.
  - apply (onFetch_cache_first Example.browser "/logo.png"). reflexivity.
Defined.

(** ** Favorites *)

Lemma onClick_favorites (env : Env) (original : WithFavorites.Row)
    (st : WithFavorites.State) (w : World) :
  let updated :=
    <[WithFavorites.row_name original :=
        negb (truthy (WithFavorites.favorites st !! WithFavorites.row_name original))]>
      (WithFavorites.favorites st) in
  WithFavorites.onClick env "favorites" original st w =
  (Ok {| WithFavorites.search := WithFavorites.search st;
         WithFavorites.dayFilter := WithFavorites.dayFilter st;
         WithFavorites.openFilter := WithFavorites.openFilter st;
         WithFavorites.onlyFavs := WithFavorites.onlyFavs st;
         WithFavorites.favorites := updated |},
   {| storeData := storeData w;
      localStorage := <["favorites" := JSON_stringify env updated]> (localStorage w) |}).
Proof. reflexivity. Qed.

Lemma onClick_other_column (env : Env) (columnId : string) (original : WithFavorites.Row)
    (st : WithFavorites.State) (w : World) :
  columnId <> "favorites" ->
  WithFavorites.onClick env columnId original st w = (Ok st, w).
Proof.
  intros Hne. unfold WithFavorites.onClick.
  apply String.eqb_neq in Hne. now rewrite Hne.
Qed.

(** C10, as amended: toggling a store's favorite twice restores its
    displayed flag ([favorites[name] || false]), one toggle flips it, and
    one toggle leaves the displayed flag of every store with another name as
    it was. *)
Theorem toggle_twice_restores_flag (env : Env) (st : WithFavorites.State)
    (toggled other : Store) (w : World) :
  exists (st1 st2 : WithFavorites.State) (w1 w2 : World),
    WithFavorites.onClick env "favorites"
      (decorated (WithFavorites.favorites st) toggled) st w = (Ok st1, w1) /\
    WithFavorites.onClick env "favorites"
      (decorated (WithFavorites.favorites st1) toggled) st1 w1 = (Ok st2, w2) /\
    WithFavorites.favorite (decorated (WithFavorites.favorites st1) toggled) =
      negb (WithFavorites.favorite (decorated (WithFavorites.favorites st) toggled)) /\
    WithFavorites.favorite (decorated (WithFavorites.favorites st2) toggled) =
      WithFavorites.favorite (decorated (WithFavorites.favorites st) toggled) /\
    (name other <> name toggled ->
     WithFavorites.favorite (decorated (WithFavorites.favorites st1) other) =
       WithFavorites.favorite (decorated (WithFavorites.favorites st) other)).
Proof.
  do 4 eexists. split; [apply onClick_favorites|]. split; [apply onClick_favorites|].
  cbn [decorated WithFavorites.favorite WithFavorites.row_name WithFavorites.favorites].
  rewrite !lookup_insert_eq. cbn [truthy]. rewrite negb_involutive.
  repeat split. intros Hne. now rewrite lookup_insert_ne.
Qed.

Lemma toggle_twice_restores_flag_witness :
  exists (st1 st2 : WithFavorites.State) (w1 w2 : World),
    WithFavorites.onClick Example.env "favorites"
      (decorated ∅ Example.bakery) Example.openNow Example.world = (Ok st1, w1) /\
    WithFavorites.onClick Example.env "favorites"
      (decorated (WithFavorites.favorites st1) Example.bakery) st1 w1 = (Ok st2, w2) /\
    WithFavorites.favorite (decorated (WithFavorites.favorites st1) Example.bakery) =
      negb (WithFavorites.favorite (decorated ∅ Example.bakery)) /\
    WithFavorites.favorite (decorated (WithFavorites.favorites st2) Example.bakery) =
      WithFavorites.favorite (decorated ∅ Example.bakery) /\
    (name Example.grocer <> name Example.bakery ->
     WithFavorites.favorite (decorated (WithFavorites.favorites st1) Example.grocer) =
       WithFavorites.favorite (decorated ∅ Example.grocer)).
Proof.
  exact (toggle_twice_restores_flag Example.env Example.openNow
           Example.bakery Example.grocer Example.world).
Defined.

(** C10 as stated fails for two stores that share a name: the annex is
    another store than the bakery, and one click on the star of the bakery
    turns the displayed flag of the annex from false to true. *)
Lemma toggle_changes_namesake_counterexample :
  Example.bakeryAnnex <> Example.bakery /\
  exists (st1 : WithFavorites.State) (w1 : World),
    WithFavorites.onClick Example.env "favorites" (decorated ∅ Example.bakery)
      Example.openNow Example.world = (Ok st1, w1) /\
    WithFavorites.favorite
      (decorated (WithFavorites.favorites Example.openNow) Example.bakeryAnnex) = false /\
    WithFavorites.favorite
      (decorated (WithFavorites.favorites st1) Example.bakeryAnnex) = true.
Proof.
  split.
  - intros Heq. apply (f_equal (fun store => hours store !! "Monday")) in Heq.
    vm_compute in Heq. discriminate Heq.
  - do 2 eexists. split; [apply onClick_favorites|]. split; reflexivity.
Qed.

Lemma initialFavorites_eq (env : Env) (w : World) :
  WithFavorites.initialFavorites env w =
  (match JSON_parse env (default "{}" (localStorage w !! "favorites")) with
   | Some parsed => Ok parsed
   | None => Throw SyntaxError
   end, w).
Proof.
  unfold WithFavorites.initialFavorites, bind, getItem.
  now destruct (JSON_parse env _).
Qed.

Lemma sortingFn_frame (env : Env) (dayFilter : string) (a b : WithFavorites.Row)
    (w : World) :
  snd (WithFavorites.sortingFn env dayFilter a b w) = w.
Proof.
  unfold WithFavorites.sortingFn. cbn [Array_map]. unfold bind, ret.
  destruct (WithFavorites.row_hours a !! _); [|reflexivity].
  destruct (WithFavorites.row_hours b !! _); reflexivity.
Qed.

Section Persistence.

Variable env : Env.

(** What the component relies on from the runtime's JSON: a flat object of
    booleans is read back as written, and the text of the empty object is
    read as the empty map. *)
Hypothesis parse_stringify :
  forall m : gmap string bool, JSON_parse env (JSON_stringify env m) = Some m.
Hypothesis parse_empty_object : JSON_parse env "{}" = Some ∅.

(** C4: after a favorite toggle the text stored under the key "favorites"
    is the JSON of the in-memory favorites map, so that an initialization
    from that storage yields the same map; initialization takes the
    favorites map to be the parsed value of that key, and the empty map
    when the key is absent; and no computation of the component writes
    another storage key. *)
Theorem favorites_persisted_under_one_key (st : WithFavorites.State)
    (columnId dayFilter : string) (original a b : WithFavorites.Row) (w : World) :
  (exists (st' : WithFavorites.State) (w' : World) (text : string),
      WithFavorites.onClick env "favorites" original st w = (Ok st', w') /\
      localStorage w' !! "favorites" = Some text /\
      JSON_parse env text = Some (WithFavorites.favorites st') /\
      WithFavorites.initialFavorites env w' = (Ok (WithFavorites.favorites st'), w')) /\
  (forall text : string,
      localStorage w !! "favorites" = Some text ->
      WithFavorites.initialFavorites env w =
      (match JSON_parse env text with
       | Some parsed => Ok parsed
       | None => Throw SyntaxError
       end, w)) /\
  (localStorage w !! "favorites" = None ->
   WithFavorites.initialFavorites env w = (Ok ∅, w)) /\
  (forall key : string,
      key <> "favorites" ->
      localStorage (snd (WithFavorites.onClick env columnId original st w)) !! key =
      localStorage w !! key) /\
  snd (WithFavorites.initialFavorites env w) = w /\
  snd (WithFavorites.filteredData env st w) = w /\
  snd (WithFavorites.sortingFn env dayFilter a b w) = w.
Proof.
  split; [|split; [|split; [|split; [|split; [|split]]]]].
  - do 3 eexists. split; [apply onClick_favorites|].
    cbn [localStorage]. split; [apply lookup_insert_eq|].
    split; [apply parse_stringify|].
    rewrite initialFavorites_eq. cbn [localStorage].
    rewrite lookup_insert_eq. cbn [from_option id]. now rewrite parse_stringify.
  - intros text Htext. rewrite initialFavorites_eq. now rewrite Htext.
  - intros Hnone. rewrite initialFavorites_eq, Hnone. cbn [from_option id].
    now rewrite parse_empty_object.
  - intros key Hkey. destruct (String.eqb_spec columnId "favorites") as [->|Hne].
    + rewrite onClick_favorites. cbn [snd localStorage]. now rewrite lookup_insert_ne.
    + now rewrite onClick_other_column.
  - now rewrite initialFavorites_eq.
  - apply filteredData_frame.
  - apply sortingFn_frame.
Qed.

End Persistence.

(** ** The concrete JSON text *)

Lemma append_String (c : ascii) (s t : string) : String c s +:+ t = String c (s +:+ t).
Proof. reflexivity. Qed.

Lemma append_Empty (t : string) : EmptyString +:+ t = t.
Proof. reflexivity. Qed.

Lemma length_append (s t : string) :
  String.length (s +:+ t) = (String.length s + String.length t)%nat.
Proof.
  induction s as [|c s IH]; [reflexivity|].
  rewrite append_String. cbn [String.length]. now rewrite IH.
Qed.

Lemma parseKey_escape (k rest : string) (acc : list ascii) :
  Example.parseKey acc (Example.escape k +:+ String Example.quotationMark rest) =
  Some (string_of_list_ascii (rev acc ++ list_ascii_of_string k)%list, rest).
Proof.
  revert acc. induction k as [|c k IH]; intros acc.
  - cbn [Example.escape]. rewrite append_Empty. cbn. now rewrite app_nil_r.
  - cbn [Example.escape list_ascii_of_string].
    replace (rev acc ++ c :: list_ascii_of_string k)%list
      with (rev (c :: acc) ++ list_ascii_of_string k)%list
      by (cbn [rev]; now rewrite <- app_assoc).
    destruct (Ascii.eqb c Example.quotationMark) eqn:Hq.
    + cbn [orb]. rewrite !append_String. cbn [Example.parseKey].
      change (Ascii.eqb Example.backslash Example.quotationMark) with false.
      change (Ascii.eqb Example.backslash Example.backslash) with true.
      cbv iota. apply IH.
    + destruct (Ascii.eqb c Example.backslash) eqn:Hb; cbn [orb].
      * rewrite !append_String. cbn [Example.parseKey].
        change (Ascii.eqb Example.backslash Example.quotationMark) with false.
        change (Ascii.eqb Example.backslash Example.backslash) with true.
        cbv iota. apply IH.
      * rewrite append_String. cbn [Example.parseKey]. rewrite Hq, Hb. apply IH.
Qed.

Lemma parseValue_text (v : bool) (rest : string) :
  Example.parseValue ((if v then "true" else "false") +:+ rest) = Some (v, rest).
Proof. now destruct v. Qed.

Lemma parseMembers_members (l : list (string * bool)) (fuel : nat) :
  l <> [] -> (length l <= fuel)%nat ->
  Example.parseMembers fuel (Example.members l) = Some l.
Proof.
  revert fuel. induction l as [|[k v] l IH]; intros fuel Hne Hfuel; [contradiction|].
  destruct fuel as [|fuel]; [cbn in Hfuel; lia|].
  assert (Hstep : forall rest,
    Example.parseMembers (S fuel) (Example.member (k, v) rest) =
    match rest with
    | String "," r2 => option_map (cons (k, v)) (Example.parseMembers fuel r2)
    | String "}" EmptyString => Some [(k, v)]
    | _ => None
    end).
  { intros rest. unfold Example.member. cbn [Example.parseMembers fst snd].
    change (Ascii.eqb Example.quotationMark Example.quotationMark) with true. cbv iota.
    rewrite parseKey_escape. cbn [rev app].
    rewrite string_of_list_ascii_of_string, parseValue_text. reflexivity. }
  destruct l as [|kv l].
  - cbn [Example.members]. now rewrite Hstep.
  - change (Example.members ((k, v) :: kv :: l))
      with (Example.member (k, v) (String "," (Example.members (kv :: l)))).
    rewrite Hstep. rewrite IH; [reflexivity | discriminate | cbn in *; lia].
Qed.

Lemma members_length (l : list (string * bool)) :
  (length l <= String.length (Example.members l))%nat.
Proof.
  induction l as [|kv l IH]; [cbn; lia|].
  assert (Hmember : forall rest,
    (S (String.length rest) <= String.length (Example.member kv rest))%nat).
  { intros rest. unfold Example.member. cbn [String.length].
    rewrite length_append. cbn [String.length].
    rewrite length_append. lia. }
  destruct l as [|kv' l].
  - cbn [Example.members length]. specialize (Hmember "}"). lia.
  - change (Example.members (kv :: kv' :: l))
      with (Example.member kv (String "," (Example.members (kv' :: l)))).
    specialize (Hmember (String "," (Example.members (kv' :: l)))).
    cbn [String.length length] in *. lia.
Qed.

(** The concrete JSON text satisfies what [Persistence] assumes. *)
Lemma parse_stringify (m : gmap string bool) :
  Example.parse (Example.stringify m) = Some m.
Proof.
  unfold Example.stringify.
  destruct (map_to_list m) as [|kv l] eqn:Hl.
  - apply map_to_list_empty_iff in Hl. now subst m.
  - assert (Hparse : Example.parse (String "{" (Example.members (kv :: l))) =
      option_map list_to_map
        (Example.parseMembers (String.length (Example.members (kv :: l)))
           (Example.members (kv :: l)))).
    { destruct l; reflexivity. }
    rewrite Hparse, parseMembers_members; [|discriminate|apply members_length].
    cbn [option_map]. now rewrite <- Hl, list_to_map_to_list.
Qed.

Lemma favorites_persisted_under_one_key_witness :
  (exists (st' : WithFavorites.State) (w' : World) (text : string),
      WithFavorites.onClick Example.env "favorites" (decorated ∅ Example.bakery)
        Example.openNow Example.world = (Ok st', w') /\
      localStorage w' !! "favorites" = Some text /\
      JSON_parse Example.env text = Some (WithFavorites.favorites st') /\
      WithFavorites.initialFavorites Example.env w' = (Ok (WithFavorites.favorites st'), w')) /\
  (forall text : string,
      localStorage Example.world !! "favorites" = Some text ->
      WithFavorites.initialFavorites Example.env Example.world =
      (match JSON_parse Example.env text with
       | Some parsed => Ok parsed
       | None => Throw SyntaxError
       end, Example.world)) /\
  (localStorage Example.world !! "favorites" = None ->
   WithFavorites.initialFavorites Example.env Example.world = (Ok ∅, Example.world)) /\
  (forall key : string,
      key <> "favorites" ->
      localStorage (snd (WithFavorites.onClick Example.env "favorites"
                           (decorated ∅ Example.bakery) Example.openNow Example.world)) !! key =
      localStorage Example.world !! key) /\
  snd (WithFavorites.initialFavorites Example.env Example.world) = Example.world /\
  snd (WithFavorites.filteredData Example.env Example.openNow Example.world) = Example.world /\
  snd (WithFavorites.sortingFn Example.env "Monday"
         (decorated ∅ Example.bakery) (decorated ∅ Example.grocer) Example.world)
    = Example.world.
Proof.
  apply (favorites_persisted_under_one_key Example.env parse_stringify eq_refl
           Example.openNow "favorites" "Monday"
           (decorated ∅ Example.bakery) (decorated ∅ Example.bakery)
           (decorated ∅ Example.grocer) Example.world).
Defined.

(** * Further properties *)

(** ** The two versions of the filtered list *)

Lemma Array_filter_ext {A : Type} (f g : A -> M bool) (l : list A) :
  (forall x w, f x w = g x w) ->
  forall w, Array_filter f l w = Array_filter g l w.
Proof.
  intros Hext. induction l as [|x l IH]; intros w; [reflexivity|].
  cbn [Array_filter]. unfold bind. rewrite Hext.
  destruct (g x w) as [[b|e] w1]; [|reflexivity].
  now rewrite IH.
Qed.

Lemma filterCallback_versions (env : Env) (st : WithFavorites.State) (store : Store)
    (w : World) :
  WithFavorites.onlyFavs st <> "Favorites" ->
  WithFavorites.filterCallback env st store w =
  NoFavorites.filterCallback env (Table.withoutFavorites st) store w.
Proof.
  intros Hall. rewrite filterCallback_eq, filterCallback_eq'.
  unfold favoritesPredicate. apply String.eqb_neq in Hall. now rewrite Hall.
Qed.

(** With the favorites filter off, the list of the version with favorites
    is the list of the version without, each store decorated with its
    favorite flag; the two computations also throw together. *)
Theorem filteredData_versions_agree (env : Env) (st : WithFavorites.State) (w : World) :
  WithFavorites.onlyFavs st <> "Favorites" ->
  WithFavorites.filteredData env st w =
  match NoFavorites.filteredData env (Table.withoutFavorites st) w with
  | (Ok kept, w') => (Ok (decorated (WithFavorites.favorites st) <$> kept), w')
  | (Throw e, w') => (Throw e, w')
  end.
Proof.
  intros Hall. unfold WithFavorites.filteredData, NoFavorites.filteredData.
  rewrite (bind_Ok _ _ w w (storeData w)) by reflexivity.
  rewrite (bind_Ok readStoreData _ w w (storeData w)) by reflexivity.
  rewrite <- (Array_filter_ext (WithFavorites.filterCallback env st)
                (NoFavorites.filterCallback env (Table.withoutFavorites st)) (storeData w)
                (fun store w0 => filterCallback_versions env st store w0 Hall) w).
  destruct (Array_filter (WithFavorites.filterCallback env st) (storeData w) w)
    as [[kept|e] w1] eqn:Hfilter.
  - rewrite (bind_Ok _ _ w w1 kept Hfilter).
    apply (Array_map_pure (decorated (WithFavorites.favorites st))).
  - now rewrite (bind_Throw _ _ w w1 e Hfilter).
Qed.

Lemma filteredData_versions_agree_witness :
  WithFavorites.filteredData Example.env Example.openNow Example.world =
  match NoFavorites.filteredData Example.env Example.openNow' Example.world with
  | (Ok kept, w') => (Ok (decorated ∅ <$> kept), w')
  | (Throw e, w') => (Throw e, w')
  end.
Proof.
  apply (filteredData_versions_agree Example.env Example.openNow Example.world).
  discriminate.
Defined.

Lemma Array_filter_Ok_filter {A : Type} (callback : A -> M bool) (p : A -> bool)
    (l : list A) (w : World) :
  (forall x w0, snd (callback x w0) = w0) ->
  (forall x b, x ∈ l -> callback x w = (Ok b, w) -> b = p x) ->
  forall r w', Array_filter callback l w = (Ok r, w') -> r = List.filter p l.
Proof.
  intros Hframe. induction l as [|x l IH]; intros Hp r w'.
  - now intros [= <- _].
  - cbn [Array_filter List.filter]. unfold bind.
    pose proof (Hframe x w) as Hx.
    destruct (callback x w) as [[b|e] w1] eqn:Hcb; cbn [snd] in Hx; subst w1;
      [|discriminate].
    destruct (Array_filter callback l w) as [[r1|e] w2] eqn:Hrest; [|discriminate].
    intros [= <- _].
    rewrite <- (Hp x b) by (try apply elem_of_cons; auto).
    rewrite <- (IH (fun y c Hy => Hp y c (proj2 (elem_of_cons _ _ _) (or_intror Hy)))
                  r1 w2 eq_refl).
    reflexivity.
Qed.

Lemma Array_filter_Throw_inv {A : Type} (callback : A -> M bool) (l : list A) (w : World) :
  (forall x w0, snd (callback x w0) = w0) ->
  forall e w', Array_filter callback l w = (Throw e, w') ->
  exists x, x ∈ l /\ callback x w = (Throw e, w).
Proof.
  intros Hframe. induction l as [|x l IH]; intros e w'; [discriminate|].
  cbn [Array_filter]. unfold bind.
  pose proof (Hframe x w) as Hx.
  destruct (callback x w) as [[b|e0] w1] eqn:Hcb; cbn [snd] in Hx; subst w1.
  - destruct (Array_filter callback l w) as [[r1|e1] w2] eqn:Hrest; [discriminate|].
    intros [= <- _]. destruct (IH e1 w2 eq_refl) as (y & Hy & Hthrow).
    exists y. split; [now apply elem_of_cons; right | exact Hthrow].
  - intros [= <- _]. exists x. split; [now apply elem_of_cons; left | exact Hcb].
Qed.

Lemma filterCallback_frame' (env : Env) (st : NoFavorites.State) (store : Store) (w : World) :
  snd (NoFavorites.filterCallback env st store w) = w.
Proof. now rewrite filterCallback_eq'. Qed.

Lemma filterCallback_Ok' (env : Env) (st : NoFavorites.State) (store : Store) (w : World)
    (b : bool) :
  NoFavorites.filterCallback env st store w = (Ok b, w) ->
  b = searchPredicate env (NoFavorites.search st) store &&
      openNowPredicate env (NoFavorites.dayFilter st) (NoFavorites.openFilter st) store.
Proof.
  rewrite filterCallback_eq'. unfold openNowPredicate.
  destruct (searchPredicate env _ store); [|now intros [= <-]].
  destruct (String.eqb _ _); [|now intros [= <-]].
  destruct (hours store !! _); [now intros [= <-] | discriminate].
Qed.

Lemma filterCallback_Throw' (env : Env) (st : NoFavorites.State) (store : Store) (w : World)
    (e : exn) :
  NoFavorites.filterCallback env st store w = (Throw e, w) <->
  e = TypeError /\
  searchPredicate env (NoFavorites.search st) store = true /\
  NoFavorites.openFilter st = "Open Now" /\
  hours store !! selectedDay env (NoFavorites.dayFilter st) = None.
Proof.
  rewrite filterCallback_eq'.
  destruct (searchPredicate env _ store).
  - destruct (String.eqb_spec (NoFavorites.openFilter st) "Open Now") as [Hopen|Hopen].
    + destruct (hours store !! _).
      * split; [discriminate | now intros (_ & _ & _ & ?)].
      * split; [now intros [= <-] | now intros (-> & _)].
    + split; [discriminate | now intros (_ & _ & ? & _)].
  - split; [discriminate | now intros (_ & ? & _)].
Qed.

Lemma filterCallback_outcome' (env : Env) (st : NoFavorites.State) (w : World)
    (store : Store) :
  (exists kept : bool, NoFavorites.filterCallback env st store w = (Ok kept, w)) \/
  NoFavorites.filterCallback env st store w = (Throw TypeError, w).
Proof.
  rewrite filterCallback_eq'.
  destruct (searchPredicate env _ store); [|left; now eexists].
  destruct (String.eqb _ _); [|left; now eexists].
  destruct (hours store !! _); [left; now eexists | now right].
Qed.

(** The list of the version without favorites: the computation leaves the
    world as it was; a returned list is [storeData] filtered, in order, by
    the search predicate and the open-now predicate; and it throws, always a
    [TypeError], exactly when the "Open Now" filter is on and some store that
    passes the search has no hours entry for the selected day. *)
Theorem filteredData_without_favorites (env : Env) (st : NoFavorites.State) (w : World) :
  snd (NoFavorites.filteredData env st w) = w /\
  (forall kept : list Store,
      fst (NoFavorites.filteredData env st w) = Ok kept ->
      kept = List.filter (fun store =>
               searchPredicate env (NoFavorites.search st) store &&
               openNowPredicate env (NoFavorites.dayFilter st) (NoFavorites.openFilter st)
                 store) (storeData w)) /\
  ((exists e : exn, fst (NoFavorites.filteredData env st w) = Throw e) <->
   NoFavorites.openFilter st = "Open Now" /\
   exists store : Store,
     store ∈ storeData w /\
     searchPredicate env (NoFavorites.search st) store = true /\
     hours store !! selectedDay env (NoFavorites.dayFilter st) = None) /\
  (forall e : exn, fst (NoFavorites.filteredData env st w) = Throw e -> e = TypeError).
Proof.
  unfold NoFavorites.filteredData.
  rewrite (bind_Ok readStoreData _ w w (storeData w)) by reflexivity.
  pose proof (Array_filter_frame (NoFavorites.filterCallback env st) (storeData w)
                (filterCallback_frame' env st) w) as Hframe.
  destruct (Array_filter (NoFavorites.filterCallback env st) (storeData w) w)
    as [[kept|e] w1] eqn:Hfilter; cbn [fst snd] in *; subst w1.
  - split; [reflexivity|]. split; [|split].
    + intros kept' [= <-].
      apply (Array_filter_Ok_filter _ _ _ w (filterCallback_frame' env st)) with (w' := w);
        [|exact Hfilter].
      intros store b _. apply filterCallback_Ok'.
    + split; [intros [e [=]]|].
      intros (Hopen & store & Hin & Hsearch & Hentry). exfalso.
      assert (Hthrow : NoFavorites.filterCallback env st store w = (Throw TypeError, w))
        by now apply filterCallback_Throw'.
      rewrite (Array_filter_throws _ _ w store (filterCallback_outcome' env st w) Hin Hthrow)
        in Hfilter.
      discriminate.
    + discriminate.
  - destruct (Array_filter_Throw_inv _ _ w (filterCallback_frame' env st) e w Hfilter)
      as (store & Hin & Hthrow).
    apply filterCallback_Throw' in Hthrow as (-> & Hsearch & Hopen & Hentry).
    split; [reflexivity|]. split; [discriminate|]. split.
    + split; [|now eexists]. intros _. split; [exact Hopen|]. now exists store.
    + now intros e [= <-].
Qed.

(** ** What the filters do to the list *)

Lemma filter_all {A : Type} (l : list A) : List.filter (fun _ => true) l = l.
Proof. induction l as [|x l IH]; [reflexivity|]. cbn. now rewrite IH. Qed.

(** With an empty search box and the two filters off, as in the state the
    component starts in, every store is listed, in the order of
    [storeData]; no entry of [hours] is read, so nothing is thrown. *)
Theorem no_filter_lists_every_store (env : Env) (st : WithFavorites.State) (w : World) :
  WithFavorites.search st = EmptyString ->
  WithFavorites.openFilter st <> "Open Now" ->
  WithFavorites.onlyFavs st <> "Favorites" ->
  WithFavorites.filteredData env st w
    = (Ok (decorated (WithFavorites.favorites st) <$> storeData w), w) /\
  NoFavorites.filteredData env (Table.withoutFavorites st) w = (Ok (storeData w), w).
Proof.
  intros Hsearch Hopen Hfavs.
  apply String.eqb_neq in Hopen, Hfavs.
  assert (Hkeep : forall store w0,
    NoFavorites.filterCallback env (Table.withoutFavorites st) store w0 = (Ok true, w0)).
  { intros store w0. rewrite filterCallback_eq'. cbn.
    unfold searchPredicate. now rewrite Hsearch, Hopen. }
  assert (Hlist : NoFavorites.filteredData env (Table.withoutFavorites st) w
                  = (Ok (storeData w), w)).
  { unfold NoFavorites.filteredData.
    rewrite (bind_Ok readStoreData _ w w (storeData w)) by reflexivity. cbv beta.
    rewrite (Array_filter_pure _ (fun _ => true)) by (intros; apply Hkeep).
    now rewrite filter_all. }
  split; [|exact Hlist].
  unfold WithFavorites.filteredData.
  rewrite (bind_Ok readStoreData _ w w (storeData w)) by reflexivity. cbv beta.
  erewrite bind_Ok; [apply (Array_map_pure (decorated (WithFavorites.favorites st)))|].
  rewrite (Array_filter_pure _ (fun _ => true)).
  - now rewrite filter_all.
  - intros store _. rewrite filterCallback_versions by now apply String.eqb_neq.
    apply Hkeep.
Qed.

Lemma no_filter_lists_every_store_witness :
  WithFavorites.filteredData Example.env Example.mounted Example.worldWithMarket
    = (Ok (decorated ∅ <$> storeData Example.worldWithMarket), Example.worldWithMarket) /\
  NoFavorites.filteredData Example.env (Table.withoutFavorites Example.mounted)
    Example.worldWithMarket
    = (Ok (storeData Example.worldWithMarket), Example.worldWithMarket).
Proof.
  apply (no_filter_lists_every_store Example.env Example.mounted Example.worldWithMarket);
    [reflexivity | discriminate | discriminate].
Defined.

(** Every row of a returned list carries the favorite flag of its store,
    [favorites[name] || false]; under the "Favorites" filter that flag is
    true on every row. *)
Theorem rows_carry_favorite_flag (env : Env) (st : WithFavorites.State) (w : World)
    (rows : list WithFavorites.Row) (row : WithFavorites.Row) :
  fst (WithFavorites.filteredData env st w) = Ok rows ->
  row ∈ rows ->
  WithFavorites.favorite row
    = truthy (WithFavorites.favorites st !! WithFavorites.row_name row) /\
  (WithFavorites.onlyFavs st = "Favorites" -> WithFavorites.favorite row = true).
Proof.
  intros Hrows Hrow.
  pose proof (filteredData_returns_entriesPresent env st w rows Hrows) as Hpresent.
  rewrite (filteredData_eq env st w Hpresent) in Hrows. injection Hrows as <-.
  apply list_elem_of_fmap in Hrow as (store & -> & Hin).
  apply list_elem_of_In, filter_In in Hin as [_ Hp].
  apply andb_true_iff in Hp as [[Hfav _]%andb_true_iff _].
  split; [reflexivity|].
  intros Honly. unfold favoritesPredicate in Hfav.
  apply String.eqb_eq in Honly. now rewrite Honly in Hfav.
Qed.

Lemma rows_carry_favorite_flag_witness :
  let row := decorated (WithFavorites.favorites Example.favoritesOnly) Example.bakery in
  WithFavorites.favorite row
    = truthy (WithFavorites.favorites Example.favoritesOnly !! WithFavorites.row_name row) /\
  (WithFavorites.onlyFavs Example.favoritesOnly = "Favorites" ->
   WithFavorites.favorite row = true).
Proof.
  apply (rows_carry_favorite_flag Example.env Example.favoritesOnly Example.world
           [decorated (WithFavorites.favorites Example.favoritesOnly) Example.bakery]).
  - reflexivity.
  - apply elem_of_cons. now left.
Defined.

Lemma filteredData_ext (env : Env) (st1 st2 : WithFavorites.State) (w : World) :
  (forall store w0,
      WithFavorites.filterCallback env st1 store w0 =
      WithFavorites.filterCallback env st2 store w0) ->
  WithFavorites.favorites st1 = WithFavorites.favorites st2 ->
  WithFavorites.filteredData env st1 w = WithFavorites.filteredData env st2 w.
Proof.
  intros Hcb Hfav. unfold WithFavorites.filteredData, bind.
  cbn [readStoreData]. rewrite (Array_filter_ext _ _ _ Hcb).
  unfold WithFavorites.mapCallback. now rewrite Hfav.
Qed.

Lemma filteredData_ext' (env : Env) (st1 st2 : NoFavorites.State) (w : World) :
  (forall store w0,
      NoFavorites.filterCallback env st1 store w0 =
      NoFavorites.filterCallback env st2 store w0) ->
  NoFavorites.filteredData env st1 w = NoFavorites.filteredData env st2 w.
Proof.
  intros Hcb. unfold NoFavorites.filteredData, bind.
  cbn [readStoreData]. now rewrite (Array_filter_ext _ _ _ Hcb).
Qed.

(** The search ignores case: two non-empty search texts with the same
    lowercase form give the same list, in both versions. *)
Theorem search_ignores_case (env : Env) (st : WithFavorites.State) (text1 text2 : string)
    (w : World) :
  text1 <> EmptyString ->
  text2 <> EmptyString ->
  toLowerCase env text1 = toLowerCase env text2 ->
  WithFavorites.filteredData env (Table.setSearch text1 st) w =
  WithFavorites.filteredData env (Table.setSearch text2 st) w /\
  NoFavorites.filteredData env (Table.withoutFavorites (Table.setSearch text1 st)) w =
  NoFavorites.filteredData env (Table.withoutFavorites (Table.setSearch text2 st)) w.
Proof.
  intros H1 H2 Hlower.
  assert (Hsearch : forall store,
    searchPredicate env text1 store = searchPredicate env text2 store).
  { intros store. unfold searchPredicate.
    apply nonEmpty_true in H1, H2. now rewrite H1, H2, Hlower. }
  split.
  - apply filteredData_ext; [|reflexivity]. intros store w0.
    rewrite !filterCallback_eq. cbn. now rewrite Hsearch.
  - apply filteredData_ext'. intros store w0.
    rewrite !filterCallback_eq'. cbn. now rewrite Hsearch.
Qed.

Lemma search_ignores_case_witness :
  WithFavorites.filteredData Example.env (Table.setSearch "BAKE" Example.openNow)
    Example.world =
  WithFavorites.filteredData Example.env (Table.setSearch "bake" Example.openNow)
    Example.world /\
  NoFavorites.filteredData Example.env
    (Table.withoutFavorites (Table.setSearch "BAKE" Example.openNow)) Example.world =
  NoFavorites.filteredData Example.env
    (Table.withoutFavorites (Table.setSearch "bake" Example.openNow)) Example.world.
Proof.
  apply (search_ignores_case Example.env Example.openNow "BAKE" "bake" Example.world);
    [discriminate | discriminate | reflexivity].
Defined.

(** The day selector has no effect on the list unless the "Open Now"
    filter is on. *)
Theorem day_selector_matters_only_under_open_now (env : Env) (st : WithFavorites.State)
    (day : string) (w : World) :
  WithFavorites.openFilter st <> "Open Now" ->
  WithFavorites.filteredData env (WithFavorites.setDayFilter day st) w =
  WithFavorites.filteredData env st w /\
  NoFavorites.filteredData env
    (Table.withoutFavorites (WithFavorites.setDayFilter day st)) w =
  NoFavorites.filteredData env (Table.withoutFavorites st) w.
Proof.
  intros Hopen. apply String.eqb_neq in Hopen. split.
  - apply filteredData_ext; [|reflexivity]. intros store w0.
    rewrite !filterCallback_eq. cbn. now rewrite Hopen.
  - apply filteredData_ext'. intros store w0.
    rewrite !filterCallback_eq'. cbn. now rewrite Hopen.
Qed.

Lemma day_selector_matters_only_under_open_now_witness :
  WithFavorites.filteredData Example.env
    (WithFavorites.setDayFilter "Saturday" Example.mounted) Example.worldWithMarket =
  WithFavorites.filteredData Example.env Example.mounted Example.worldWithMarket /\
  NoFavorites.filteredData Example.env
    (Table.withoutFavorites (WithFavorites.setDayFilter "Saturday" Example.mounted))
    Example.worldWithMarket =
  NoFavorites.filteredData Example.env (Table.withoutFavorites Example.mounted)
    Example.worldWithMarket.
Proof.
  apply (day_selector_matters_only_under_open_now Example.env Example.mounted "Saturday"
           Example.worldWithMarket).
  discriminate.
Defined.

Lemma selectedDay_current (env : Env) :
  selectedDay env (getCurrentDay env) = selectedDay env "Current Day".
Proof. unfold selectedDay. cbn. now destruct (String.eqb _ _). Qed.

(** Selecting the name of the current day is the same as leaving the
    selector on "Current Day": the list, the comparator and the Hours cell
    are the same, in both versions. *)
Theorem current_day_by_name (env : Env) (st : WithFavorites.State) (w : World)
    (a b : WithFavorites.Row) (a' b' : Store) :
  WithFavorites.dayFilter st = "Current Day" ->
  let st' := WithFavorites.setDayFilter (getCurrentDay env) st in
  WithFavorites.filteredData env st' w = WithFavorites.filteredData env st w /\
  NoFavorites.filteredData env (Table.withoutFavorites st') w =
    NoFavorites.filteredData env (Table.withoutFavorites st) w /\
  WithFavorites.sortingFn env (WithFavorites.dayFilter st') a b w =
    WithFavorites.sortingFn env (WithFavorites.dayFilter st) a b w /\
  NoFavorites.sortingFn env (WithFavorites.dayFilter st') a' b' w =
    NoFavorites.sortingFn env (WithFavorites.dayFilter st) a' b' w /\
  Table.cell env (WithFavorites.dayFilter st') (hours a') =
    Table.cell env (WithFavorites.dayFilter st) (hours a').
Proof.
  intros Hday st'. pose proof (selectedDay_current env) as Hsel.
  unfold selectedDay in Hsel. cbn in Hsel.
  split; [|split; [|split; [|split]]].
  - apply filteredData_ext; [|reflexivity]. intros store w0.
    rewrite !filterCallback_eq. cbn. unfold selectedDay. now rewrite Hday, Hsel.
  - apply filteredData_ext'. intros store w0.
    rewrite !filterCallback_eq'. cbn. unfold selectedDay. now rewrite Hday, Hsel.
  - unfold WithFavorites.sortingFn. cbn. now rewrite Hday, Hsel.
  - unfold NoFavorites.sortingFn. cbn. now rewrite Hday, Hsel.
  - unfold Table.cell. cbn. now rewrite Hday, Hsel.
Qed.

Lemma current_day_by_name_witness :
  let st' := WithFavorites.setDayFilter (getCurrentDay Example.env) Example.openNow in
  WithFavorites.filteredData Example.env st' Example.world =
    WithFavorites.filteredData Example.env Example.openNow Example.world /\
  NoFavorites.filteredData Example.env (Table.withoutFavorites st') Example.world =
    NoFavorites.filteredData Example.env (Table.withoutFavorites Example.openNow)
      Example.world /\
  WithFavorites.sortingFn Example.env (WithFavorites.dayFilter st')
    (decorated ∅ Example.bakery) (decorated ∅ Example.grocer) Example.world =
    WithFavorites.sortingFn Example.env (WithFavorites.dayFilter Example.openNow)
      (decorated ∅ Example.bakery) (decorated ∅ Example.grocer) Example.world /\
  NoFavorites.sortingFn Example.env (WithFavorites.dayFilter st')
    Example.bakery Example.grocer Example.world =
    NoFavorites.sortingFn Example.env (WithFavorites.dayFilter Example.openNow)
      Example.bakery Example.grocer Example.world /\
  Table.cell Example.env (WithFavorites.dayFilter st') (hours Example.bakery) =
    Table.cell Example.env (WithFavorites.dayFilter Example.openNow) (hours Example.bakery).
Proof.
  apply (current_day_by_name Example.env Example.openNow Example.world
           (decorated ∅ Example.bakery) (decorated ∅ Example.grocer)
           Example.bakery Example.grocer).
  reflexivity.
Defined.

(** ** Time strings *)

Lemma fourDigits_inv (s : string) :
  fourDigits s = true ->
  exists a b c d : ascii,
    s = String a (String b (String c (String d EmptyString))) /\
    isDigit a = true /\ isDigit b = true /\ isDigit c = true /\ isDigit d = true.
Proof.
  destruct s as [|a [|b [|c [|d [|? ?]]]]]; try discriminate.
  unfold fourDigits. rewrite !andb_true_iff.
  intros [[[? ?] ?] ?]. now exists a, b, c, d.
Qed.

Lemma isHHMM_fourDigits (s : string) : isHHMM s = true -> fourDigits s = true.
Proof.
  intros (a & b & c & d & -> & Ha & Hb & Hc & Hd & _)%isHHMM_inv.
  unfold fourDigits. now rewrite Ha, Hb, Hc, Hd.
Qed.

Lemma timeValue_fourDigits (env : Env) (s : string) :
  fourDigits s = true ->
  timeValue env s =
  Num (UTC env (MakeDate (currentLocalDay env) (MakeTime (hourOf s) (minuteOf s)))).
Proof.
  intros (a & b & c & d & -> & Ha & Hb & Hc & Hd)%fourDigits_inv.
  unfold timeValue.
  change (substring (String a (String b (String c (String d EmptyString)))) 0 2)
    with (String a (String b EmptyString)).
  change (substring (String a (String b (String c (String d EmptyString)))) 2 4)
    with (String c (String d EmptyString)).
  now rewrite !parseInt_two_digits.
Qed.

Lemma fourDigits_bounds (s : string) :
  fourDigits s = true -> 0 <= hourOf s <= 99 /\ 0 <= minuteOf s <= 99.
Proof.
  intros (a & b & c & d & -> & Ha & Hb & Hc & Hd)%fourDigits_inv.
  apply isDigit_bounds in Ha, Hb, Hc, Hd. cbn [hourOf minuteOf]. lia.
Qed.

(** The local fields of a time that many hours and minutes after local
    midnight. *)
Lemma carried_fields (D h m : Z) :
  let t := MakeDate D (MakeTime h m) in
  Day t = D + (60 * h + m) / 1440 /\
  HourFromTime t = ((60 * h + m) / 60) mod 24 /\
  MinFromTime t = (60 * h + m) mod 60.
Proof.
  cbn zeta.
  unfold MakeDate, MakeTime, Day, HourFromTime, MinFromTime,
    msPerDay, msPerHour, msPerMinute.
  set (n := 60 * h + m).
  replace (D * 86400000 + (h * 3600000 + m * 60000))
    with (D * 86400000 + n * 60000) by (unfold n; lia).
  pose proof (Z.div_mod n 1440 ltac:(lia)) as Hday.
  pose proof (Z.mod_pos_bound n 1440 ltac:(lia)) as Hdayr.
  pose proof (Z.div_mod n 60 ltac:(lia)) as Hhour.
  pose proof (Z.mod_pos_bound n 60 ltac:(lia)) as Hhourr.
  split; [|split].
  - symmetry. apply (Z.div_unique _ _ _ ((n mod 1440) * 60000)); lia.
  - replace ((D * 86400000 + n * 60000) / 3600000) with (n / 60 + D * 24)
      by (apply (Z.div_unique _ _ _ ((n mod 60) * 60000)); lia).
    now rewrite Z.mod_add by lia.
  - replace ((D * 86400000 + n * 60000) / 60000) with (n + (D * 24) * 60)
      by (apply (Z.div_unique _ _ _ 0); lia).
    now rewrite Z.mod_add by lia.
Qed.

(** Four digits are read as that many hours and minutes after local
    midnight without a range check: minutes above 59 carry into the hours
    and hours above 23 into the following days. When the UTC offset of the
    time zone does not change over the current day and the four days after
    it, the time values of two such strings differ by the difference of
    their minutes since midnight, and the local date, hour and minute are
    the carried ones. *)
Theorem parseTimeToJSDate_four_digits (env : Env) (s1 s2 : string) (w : World) :
  offsetFixed env 5 ->
  fourDigits s1 = true ->
  fourDigits s2 = true ->
  exists t1 t2 : Z,
    parseTimeToJSDate env (Some s1) w = (Ok (Num t1), w) /\
    parseTimeToJSDate env (Some s2) w = (Ok (Num t2), w) /\
    t1 - t2 = (minutesOfDay s1 - minutesOfDay s2) * msPerMinute /\
    Day (LocalTime env t1) = currentLocalDay env + minutesOfDay s1 / 1440 /\
    HourFromTime (LocalTime env t1) = (minutesOfDay s1 / 60) mod 24 /\
    MinFromTime (LocalTime env t1) = minutesOfDay s1 mod 60.
Proof.
  intros [offset Hfixed] H1 H2.
  rewrite !parseTimeToJSDate_Some, !timeValue_fourDigits by assumption.
  do 2 eexists. split; [reflexivity|]. split; [reflexivity|].
  assert (Hrange : forall s, fourDigits s = true ->
    MakeDate (currentLocalDay env) 0
      <= MakeDate (currentLocalDay env) (MakeTime (hourOf s) (minuteOf s))
      < MakeDate (currentLocalDay env + 5) 0).
  { intros s Hs. pose proof (fourDigits_bounds s Hs) as [Hh Hm].
    unfold MakeDate, MakeTime, msPerDay, msPerHour, msPerMinute. lia. }
  destruct (Hfixed _ (Hrange s1 H1)) as [Hutc1 Hlocal1].
  destruct (Hfixed _ (Hrange s2 H2)) as [Hutc2 _].
  rewrite Hutc1, Hutc2, Hlocal1.
  split.
  - unfold minutesOfDay, MakeDate, MakeTime, msPerDay, msPerHour, msPerMinute. lia.
  - apply carried_fields.
Qed.

Lemma parseTimeToJSDate_four_digits_witness :
  exists t1 t2 : Z,
    parseTimeToJSDate Example.env (Some "2400") Example.world = (Ok (Num t1), Example.world) /\
    parseTimeToJSDate Example.env (Some "0060") Example.world = (Ok (Num t2), Example.world) /\
    t1 - t2 = (minutesOfDay "2400" - minutesOfDay "0060") * msPerMinute /\
    Day (LocalTime Example.env t1)
      = currentLocalDay Example.env + minutesOfDay "2400" / 1440 /\
    HourFromTime (LocalTime Example.env t1) = (minutesOfDay "2400" / 60) mod 24 /\
    MinFromTime (LocalTime Example.env t1) = minutesOfDay "2400" mod 60.
Proof.
  apply (parseTimeToJSDate_four_digits Example.env "2400" "0060" Example.world);
    [apply offsetFixed_example | reflexivity | reflexivity].
Defined.

Lemma timeValue_compare_HHMM (env : Env) (s1 s2 : string) :
  offsetFixed env 1 ->
  isHHMM s1 = true ->
  isHHMM s2 = true ->
  exists t1 t2 : Z,
    timeValue env s1 = Num t1 /\ timeValue env s2 = Num t2 /\
    (t1 ?= t2) = String.compare s1 s2.
Proof.
  intros Hfixed H1 H2.
  destruct (timeValue_HHMM_fixed env s1 Hfixed H1) as (offset & Hvalue & _).
  rewrite !Hvalue by assumption.
  do 2 eexists. split; [reflexivity|]. split; [reflexivity|].
  rewrite compare_shift. now apply MakeDate_compare_HHMM.
Qed.

Lemma timeValue_le_HHMM (env : Env) (s1 s2 : string) :
  offsetFixed env 1 ->
  isHHMM s1 = true -> isHHMM s2 = true ->
  le (timeValue env s1) (timeValue env s2) = String.leb s1 s2.
Proof.
  intros Hfixed H1 H2.
  destruct (timeValue_compare_HHMM env s1 s2 Hfixed H1 H2) as (t1 & t2 & -> & -> & Hcmp).
  cbn [le]. unfold Z.leb, String.leb. now rewrite Hcmp.
Qed.

(** The outcome of both callbacks under "Open Now" for a store that has an
    entry and passes the other predicates. *)
Lemma openNowReturns_inWindow (env : Env) (store : Store) (entry : Hours)
    (search dayFilter onlyFavs : string) (favorites : gmap string bool) (w : World) :
  hours store !! selectedDay env dayFilter = Some entry ->
  favoritesPredicate onlyFavs favorites store = true ->
  searchPredicate env search store = true ->
  openNowReturns env search dayFilter onlyFavs favorites store w (Ok (inWindow env entry)).
Proof.
  intros Hentry Hfav Hsearch. split.
  - rewrite filterCallback_eq. cbn. now rewrite Hfav, Hsearch, Hentry.
  - rewrite filterCallback_eq'. cbn. now rewrite Hsearch, Hentry.
Qed.

(** On a day on which the UTC offset of the time zone does not change,
    when the opening time, the closing time and the clock are HHMM strings,
    the "Open Now" test is a comparison of the strings: the store is kept
    exactly when open <= now and now <= close in lexicographic order. *)
Theorem open_now_compares_time_strings (env : Env) (store : Store) (entry : Hours)
    (search dayFilter onlyFavs : string) (favorites : gmap string bool) (w : World) :
  offsetFixed env 1 ->
  hours store !! selectedDay env dayFilter = Some entry ->
  isHHMM (open entry) = true ->
  isHHMM (close entry) = true ->
  isHHMM (getCurrentTime env) = true ->
  favoritesPredicate onlyFavs favorites store = true ->
  searchPredicate env search store = true ->
  openNowReturns env search dayFilter onlyFavs favorites store w
    (Ok (String.leb (open entry) (getCurrentTime env) &&
         String.leb (getCurrentTime env) (close entry))).
Proof.
  intros Hfixed Hentry Ho Hc Hn Hfav Hsearch.
  rewrite <- !(timeValue_le_HHMM env) by assumption.
  now apply openNowReturns_inWindow.
Qed.

Lemma open_now_compares_time_strings_witness :
  openNowReturns Example.env EmptyString "Current Day" "All" ∅ Example.grocer Example.world
    (Ok (String.leb "0800" (getCurrentTime Example.env) &&
         String.leb (getCurrentTime Example.env) "2100")).
Proof.
  apply (open_now_compares_time_strings Example.env Example.grocer
           {| open := "0800"; close := "2100" |} EmptyString "Current Day" "All" ∅
           Example.world); try reflexivity.
  apply offsetFixed_example.
Defined.

(** Hours that run past midnight are never open: on a day on which the UTC
    offset of the time zone does not change, when the closing time of the
    entry is an earlier HHMM string than its opening time, the store is
    excluded under "Open Now" whatever the clock reads. *)
Theorem overnight_hours_never_open (env : Env) (store : Store) (entry : Hours)
    (search dayFilter onlyFavs : string) (favorites : gmap string bool) (w : World) :
  offsetFixed env 1 ->
  hours store !! selectedDay env dayFilter = Some entry ->
  isHHMM (open entry) = true ->
  isHHMM (close entry) = true ->
  String.ltb (close entry) (open entry) = true ->
  favoritesPredicate onlyFavs favorites store = true ->
  searchPredicate env search store = true ->
  openNowReturns env search dayFilter onlyFavs favorites store w (Ok false).
Proof.
  intros Hfixed Hentry Ho Hc Hlt Hfav Hsearch.
  replace false with (inWindow env entry); [now apply openNowReturns_inWindow|].
  destruct (timeValue_compare_HHMM env (close entry) (open entry) Hfixed Hc Ho)
    as (tC & tO & HtC & HtO & Hcmp).
  unfold String.ltb in Hlt.
  destruct (String.compare (close entry) (open entry)); try discriminate.
  change (tC < tO) in Hcmp.
  unfold inWindow. rewrite HtC, HtO.
  destruct (timeValue env (getCurrentTime env)) as [|tN]; [reflexivity|].
  cbn [le]. apply andb_false_iff.
  destruct (Z.leb_spec tO tN); [right; apply Z.leb_gt; lia | now left].
Qed.

Lemma overnight_hours_never_open_witness :
  openNowReturns Example.env EmptyString "Current Day" "All" ∅ Example.bar Example.world
    (Ok false).
Proof.
  apply (overnight_hours_never_open Example.env Example.bar
           {| open := "2200"; close := "0200" |} EmptyString "Current Day" "All" ∅
           Example.world); try reflexivity.
  apply offsetFixed_example.
Defined.

(** A time string of fewer than three characters has no minutes to read:
    [parseTimeToJSDate] returns the invalid date on it, without throwing. *)
Theorem parseTimeToJSDate_short_string (env : Env) (time : string) (w : World) :
  (String.length time <= 2)%nat ->
  parseTimeToJSDate env (Some time) w = (Ok NaN, w).
Proof.
  intros Hlen. rewrite parseTimeToJSDate_Some. unfold timeValue.
  assert (Hminutes : substring time 2 4 = EmptyString).
  { destruct time as [|a [|b [|c time]]]; try reflexivity. cbn in Hlen. lia. }
  rewrite Hminutes. change (parseInt EmptyString) with NaN.
  now destruct (parseInt (substring time 0 2)).
Qed.

Lemma parseTimeToJSDate_short_string_witness :
  parseTimeToJSDate Example.env (Some "9") Example.world = (Ok NaN, Example.world).
Proof.
  apply (parseTimeToJSDate_short_string Example.env "9" Example.world). cbn. lia.
Defined.

(** An entry whose opening or closing time parses to the invalid date, or
    a clock reading that does, excludes the store under "Open Now": every
    comparison with the invalid date is false, and nothing is thrown. *)
Theorem invalid_time_excludes_store (env : Env) (store : Store) (entry : Hours)
    (search dayFilter onlyFavs : string) (favorites : gmap string bool) (w : World) :
  hours store !! selectedDay env dayFilter = Some entry ->
  parseTimeToJSDate env (Some (open entry)) w = (Ok NaN, w) \/
  parseTimeToJSDate env (Some (close entry)) w = (Ok NaN, w) \/
  parseTimeToJSDate env (Some (getCurrentTime env)) w = (Ok NaN, w) ->
  favoritesPredicate onlyFavs favorites store = true ->
  searchPredicate env search store = true ->
  openNowReturns env search dayFilter onlyFavs favorites store w (Ok false).
Proof.
  intros Hentry Hinvalid Hfav Hsearch.
  replace false with (inWindow env entry); [now apply openNowReturns_inWindow|].
  rewrite !parseTimeToJSDate_Some in Hinvalid. unfold inWindow.
  destruct Hinvalid as [[= ->]|[[= ->]|[= ->]]]; cbn [le]; try reflexivity.
  - destruct (timeValue env (getCurrentTime env)); [|cbn [le]];
      now rewrite ?andb_false_r.
  - now destruct (timeValue env (open entry)).
Qed.

Lemma invalid_time_excludes_store_witness :
  openNowReturns Example.env EmptyString "Current Day" "All" ∅ Example.kiosk Example.world
    (Ok false).
Proof.
  apply (invalid_time_excludes_store Example.env Example.kiosk
           {| open := EmptyString; close := "1800" |} EmptyString "Current Day" "All" ∅
           Example.world); try reflexivity.
  left. reflexivity.
Defined.

(** ** The comparator of the Hours column *)

Lemma comparatorReturns_eq (env : Env) (dayFilter : string) (a b : Store)
    (favorites : gmap string bool) (w : World) :
  comparatorReturns env dayFilter a b favorites w
    match hours a !! selectedDay env dayFilter, hours b !! selectedDay env dayFilter with
    | Some entryA, Some entryB =>
        Ok (sub (timeValue env (close entryA)) (timeValue env (close entryB)))
    | _, _ => Throw TypeError
    end.
Proof.
  unfold comparatorReturns, WithFavorites.sortingFn, NoFavorites.sortingFn, selectedDay.
  cbn [Array_map decorated WithFavorites.row_hours]. unfold bind, ret.
  destruct (hours a !! _) as [entryA|]; [|now split].
  destruct (hours b !! _) as [entryB|]; now split.
Qed.

Lemma comparatorReturns_unique (env : Env) (dayFilter : string) (a b : Store)
    (favorites : gmap string bool) (w : World) (r1 r2 : result number) :
  comparatorReturns env dayFilter a b favorites w r1 ->
  comparatorReturns env dayFilter a b favorites w r2 ->
  r1 = r2.
Proof. intros [_ H1] [_ H2]. congruence. Qed.

(** The comparator throws a [TypeError] exactly when one of the two rows
    has no hours entry for the day it reads; when both have one it returns
    [NaN] exactly when one of the closing times parses to the invalid date,
    in both versions. *)
Theorem comparator_throws_or_returns_NaN (env : Env) (dayFilter : string) (a b : Store)
    (favorites : gmap string bool) (w : World) :
  (comparatorReturns env dayFilter a b favorites w (Throw TypeError) <->
   hours a !! selectedDay env dayFilter = None \/
   hours b !! selectedDay env dayFilter = None) /\
  (forall entryA entryB : Hours,
      hours a !! selectedDay env dayFilter = Some entryA ->
      hours b !! selectedDay env dayFilter = Some entryB ->
      (comparatorReturns env dayFilter a b favorites w (Ok NaN) <->
       parseTimeToJSDate env (Some (close entryA)) w = (Ok NaN, w) \/
       parseTimeToJSDate env (Some (close entryB)) w = (Ok NaN, w))).
Proof.
  pose proof (comparatorReturns_eq env dayFilter a b favorites w) as Heq.
  split.
  - split.
    + intros Hthrow.
      pose proof (comparatorReturns_unique _ _ _ _ _ _ _ _ Hthrow Heq) as Hr.
      destruct (hours a !! _); [|now left].
      destruct (hours b !! _); [discriminate | now right].
    + intros [Ha|Hb].
      * now rewrite Ha in Heq.
      * rewrite Hb in Heq. now destruct (hours a !! _).
  - intros entryA entryB HA HB. rewrite HA, HB in Heq.
    rewrite !parseTimeToJSDate_Some. split.
    + intros Hnan.
      pose proof (comparatorReturns_unique _ _ _ _ _ _ _ _ Hnan Heq) as Hr.
      destruct (timeValue env (close entryA)); [now left|].
      destruct (timeValue env (close entryB)); [now right | discriminate].
    + intros [[= Hnan]|[= Hnan]]; rewrite Hnan in Heq; [exact Heq|].
      now destruct (timeValue env (close entryA)).
Qed.

(** On rows that have an entry the comparator is a consistent ordering:
    swapping the arguments negates the result, and its negative and zero
    results are transitive, in both versions. *)
Theorem comparator_is_consistent (env : Env) (dayFilter : string) (a b c : Store)
    (favorites : gmap string bool) (w : World) :
  is_Some (hours a !! selectedDay env dayFilter) ->
  is_Some (hours b !! selectedDay env dayFilter) ->
  is_Some (hours c !! selectedDay env dayFilter) ->
  exists ab ba bc ac : number,
    comparatorReturns env dayFilter a b favorites w (Ok ab) /\
    comparatorReturns env dayFilter b a favorites w (Ok ba) /\
    comparatorReturns env dayFilter b c favorites w (Ok bc) /\
    comparatorReturns env dayFilter a c favorites w (Ok ac) /\
    ba = sub (Num 0) ab /\
    (lt ab (Num 0) = true -> lt bc (Num 0) = true -> lt ac (Num 0) = true) /\
    (ab = Num 0 -> bc = Num 0 -> ac = Num 0).
Proof.
  intros [ea Ha] [eb Hb] [ec Hc].
  pose proof (comparatorReturns_eq env dayFilter a b favorites w) as Hab.
  pose proof (comparatorReturns_eq env dayFilter b a favorites w) as Hba.
  pose proof (comparatorReturns_eq env dayFilter b c favorites w) as Hbc.
  pose proof (comparatorReturns_eq env dayFilter a c favorites w) as Hac.
  rewrite Ha, Hb in Hab. rewrite Ha, Hb in Hba. rewrite Hb, Hc in Hbc.
  rewrite Ha, Hc in Hac.
  do 4 eexists. repeat (split; [eassumption|]).
  destruct (timeValue env (close ea)) as [|x], (timeValue env (close eb)) as [|y],
    (timeValue env (close ec)) as [|z]; cbn [sub lt];
    repeat split; intros;
    repeat match goal with
    | H : (_ <? _) = true |- _ => apply Z.ltb_lt in H
    | H : Num _ = Num _ |- _ => injection H as H
    | H : NaN = Num _ |- _ => discriminate H
    | H : false = true |- _ => discriminate H
    end;
    try apply Z.ltb_lt; try (f_equal; lia); reflexivity.
Qed.

Lemma comparator_is_consistent_witness :
  exists ab ba bc ac : number,
    comparatorReturns Example.env "Monday" Example.cafe Example.diner ∅ Example.world (Ok ab) /\
    comparatorReturns Example.env "Monday" Example.diner Example.cafe ∅ Example.world (Ok ba) /\
    comparatorReturns Example.env "Monday" Example.diner Example.grocer ∅ Example.world (Ok bc) /\
    comparatorReturns Example.env "Monday" Example.cafe Example.grocer ∅ Example.world (Ok ac) /\
    ba = sub (Num 0) ab /\
    (lt ab (Num 0) = true -> lt bc (Num 0) = true -> lt ac (Num 0) = true) /\
    (ab = Num 0 -> bc = Num 0 -> ac = Num 0).
Proof.
  apply (comparator_is_consistent Example.env "Monday" Example.cafe Example.diner
           Example.grocer ∅ Example.world); now eexists.
Defined.

(** On a day on which the UTC offset of the time zone does not change, on
    closing times that are HHMM strings the comparator orders as the strings
    order: its result is negative, zero or positive as the closing time of
    the first row is lexicographically before, equal to or after that of the
    second, in both versions. *)
Theorem comparator_orders_as_closing_strings (env : Env) (dayFilter : string)
    (a b : Store) (entryA entryB : Hours) (favorites : gmap string bool) (w : World) :
  offsetFixed env 1 ->
  hours a !! selectedDay env dayFilter = Some entryA ->
  hours b !! selectedDay env dayFilter = Some entryB ->
  isHHMM (close entryA) = true ->
  isHHMM (close entryB) = true ->
  exists z : Z,
    comparatorReturns env dayFilter a b favorites w (Ok (Num z)) /\
    (z ?= 0) = String.compare (close entryA) (close entryB).
Proof.
  intros Hfixed HA HB HcA HcB.
  pose proof (comparatorReturns_eq env dayFilter a b favorites w) as Heq.
  rewrite HA, HB in Heq.
  destruct (timeValue_compare_HHMM env _ _ Hfixed HcA HcB)
    as (tA & tB & HtA & HtB & Hcmp).
  rewrite HtA, HtB in Heq. cbn [sub] in Heq.
  exists (tA - tB). split; [exact Heq|].
  rewrite <- Hcmp. symmetry. apply Z.compare_sub.
Qed.

Lemma comparator_orders_as_closing_strings_witness :
  exists z : Z,
    comparatorReturns Example.env "Monday" Example.cafe Example.diner ∅ Example.world
      (Ok (Num z)) /\
    (z ?= 0) = String.compare "1700" "1800".
Proof.
  apply (comparator_orders_as_closing_strings Example.env "Monday"
           Example.cafe Example.diner
           {| open := "0700"; close := "1700" |} {| open := "0700"; close := "1800" |}
           ∅ Example.world); try reflexivity.
  apply offsetFixed_example.
Defined.

(** ** Stores without hours, and the Hours cell *)

Lemma entriesPresent_filter_off (env : Env) (onlyFavs search dayFilter openFilter : string)
    (favorites : gmap string bool) (stores : list Store) :
  openFilter <> "Open Now" ->
  entriesPresent env onlyFavs favorites search dayFilter openFilter stores.
Proof. intros Hopen store _ Hopen'. contradiction. Qed.

(** With the "Open Now" filter off, a store that has no hours entry for the
    selected day is listed like any other (when it passes the favorites and
    search predicates), and the Hours cell built at that render shows
    "undefined - undefined" for it; nothing is thrown. *)
Theorem store_without_hours_is_listed (env : Env) (st : WithFavorites.State)
    (store : Store) (w : World) :
  store ∈ storeData w ->
  hours store !! selectedDay env (WithFavorites.dayFilter st) = None ->
  WithFavorites.openFilter st <> "Open Now" ->
  favoritesPredicate (WithFavorites.onlyFavs st) (WithFavorites.favorites st) store = true ->
  searchPredicate env (WithFavorites.search st) store = true ->
  exists rows : list WithFavorites.Row,
    WithFavorites.filteredData env st w = (Ok rows, w) /\
    decorated (WithFavorites.favorites st) store ∈ rows /\
    Table.columns_cell env (WithFavorites.useMemo_columns None st)
      (decorated (WithFavorites.favorites st) store) = "undefined - undefined" /\
    Table.columns_cell' env (Table.withoutFavorites st) store = "undefined - undefined".
Proof.
  intros Hin Hentry Hopen Hfav Hsearch.
  eexists. split.
  - apply filteredData_eq. now apply entriesPresent_filter_off.
  - split.
    + apply list_elem_of_fmap. exists store. split; [reflexivity|].
      apply list_elem_of_In, filter_In. split; [now apply list_elem_of_In|].
      rewrite Hfav, Hsearch. unfold openNowPredicate.
      apply String.eqb_neq in Hopen. now rewrite Hopen.
    + unfold Table.columns_cell, Table.columns_cell', Table.cell, selectedDay in *.
      cbn. now rewrite Hentry.
Qed.

Lemma store_without_hours_is_listed_witness :
  exists rows : list WithFavorites.Row,
    WithFavorites.filteredData Example.env Example.mounted Example.worldWithMarket
      = (Ok rows, Example.worldWithMarket) /\
    decorated ∅ Example.market ∈ rows /\
    Table.columns_cell Example.env (WithFavorites.useMemo_columns None Example.mounted)
      (decorated ∅ Example.market) = "undefined - undefined" /\
    Table.columns_cell' Example.env (Table.withoutFavorites Example.mounted) Example.market
      = "undefined - undefined".
Proof.
  apply (store_without_hours_is_listed Example.env Example.mounted Example.market
           Example.worldWithMarket); try reflexivity; try discriminate.
  cbn. rewrite !elem_of_cons. right. now left.
Defined.

(** ** Favorites over several clicks *)

Lemma useMemo_columns_dependency (previous : option WithFavorites.Columns)
    (st : WithFavorites.State) :
  WithFavorites.dependency (WithFavorites.useMemo_columns previous st)
    = WithFavorites.favorites st.
Proof.
  unfold WithFavorites.useMemo_columns.
  destruct previous as [memo|]; [|reflexivity].
  now case_decide.
Qed.

Lemma toggle_changes_favorites (favorites : gmap string bool) (storeName : string) :
  <[storeName := negb (truthy (favorites !! storeName))]> favorites <> favorites.
Proof.
  intros Heq.
  assert (Hlookup : (<[storeName := negb (truthy (favorites !! storeName))]> favorites)
                      !! storeName = favorites !! storeName) by now rewrite Heq.
  rewrite lookup_insert_eq in Hlookup.
  destruct (favorites !! storeName) as [[|]|]; discriminate.
Qed.

(** A favorite toggle rebuilds the column definitions: at the next render
    the comparator and the Hours cell read the day filter of that render,
    whatever day the previous definitions had kept. *)
Theorem toggle_rebuilds_columns (env : Env) (previous : option WithFavorites.Columns)
    (st : WithFavorites.State) (original : WithFavorites.Row) (day : string) (w : World) :
  exists (st1 : WithFavorites.State) (w1 : World),
    WithFavorites.onClick env "favorites" original st w = (Ok st1, w1) /\
    let columns :=
      WithFavorites.useMemo_columns
        (Some (WithFavorites.useMemo_columns previous st))
        (WithFavorites.setDayFilter day st1) in
    WithFavorites.closure_dayFilter columns = day /\
    (forall a b : WithFavorites.Row,
        WithFavorites.columns_sortingFn env columns a b w1 =
        WithFavorites.sortingFn env day a b w1) /\
    (forall row : WithFavorites.Row,
        Table.columns_cell env columns row = Table.cell env day (WithFavorites.row_hours row)).
Proof.
  do 2 eexists. split; [apply onClick_favorites|]. cbn zeta.
  assert (Hbuilt :
    WithFavorites.closure_dayFilter
      (WithFavorites.useMemo_columns
         (Some (WithFavorites.useMemo_columns previous st))
         (WithFavorites.setDayFilter day
            {| WithFavorites.search := WithFavorites.search st;
               WithFavorites.dayFilter := WithFavorites.dayFilter st;
               WithFavorites.openFilter := WithFavorites.openFilter st;
               WithFavorites.onlyFavs := WithFavorites.onlyFavs st;
               WithFavorites.favorites :=
                 <[WithFavorites.row_name original :=
                     negb (truthy (WithFavorites.favorites st
                                     !! WithFavorites.row_name original))]>
                   (WithFavorites.favorites st) |})) = day).
  { unfold WithFavorites.useMemo_columns at 1.
    rewrite useMemo_columns_dependency. cbn [WithFavorites.setDayFilter WithFavorites.favorites].
    case_decide as Hdep; [|reflexivity].
    symmetry in Hdep. now apply toggle_changes_favorites in Hdep. }
  split; [exact Hbuilt|]. split.
  - intros a b. unfold WithFavorites.columns_sortingFn. now rewrite Hbuilt.
  - intros row. unfold Table.columns_cell. now rewrite Hbuilt.
Qed.

Lemma toggled_maps_commute (m : gmap string bool) (n1 n2 : string) :
  <[n2 := negb (truthy (<[n1 := negb (truthy (m !! n1))]> m !! n2))]>
    (<[n1 := negb (truthy (m !! n1))]> m) =
  <[n1 := negb (truthy (<[n2 := negb (truthy (m !! n2))]> m !! n1))]>
    (<[n2 := negb (truthy (m !! n2))]> m).
Proof.
  destruct (decide (n1 = n2)) as [->|Hne]; [reflexivity|].
  rewrite !lookup_insert_ne by congruence.
  now rewrite (insert_insert_ne _ n2 n1) by congruence.
Qed.

Lemma clicks_two_favorites (env : Env) (row1 row2 : WithFavorites.Row)
    (st : WithFavorites.State) (w : World) :
  let n1 := WithFavorites.row_name row1 in
  let n2 := WithFavorites.row_name row2 in
  let m1 := <[n1 := negb (truthy (WithFavorites.favorites st !! n1))]>
              (WithFavorites.favorites st) in
  let m2 := <[n2 := negb (truthy (m1 !! n2))]> m1 in
  Table.clicks env [("favorites", row1); ("favorites", row2)] st w =
  (Ok {| WithFavorites.search := WithFavorites.search st;
         WithFavorites.dayFilter := WithFavorites.dayFilter st;
         WithFavorites.openFilter := WithFavorites.openFilter st;
         WithFavorites.onlyFavs := WithFavorites.onlyFavs st;
         WithFavorites.favorites := m2 |},
   {| storeData := storeData w;
      localStorage :=
        <["favorites" := JSON_stringify env m2]>
          (<["favorites" := JSON_stringify env m1]> (localStorage w)) |}).
Proof. reflexivity. Qed.

Section TogglesCommute.

Variable env : Env.

Hypothesis read_back :
  forall m : gmap string bool, JSON_parse env (JSON_stringify env m) = Some m.

(** Two favorite toggles commute on what the component keeps: clicking the
    stars of two rows in either order leaves the same state, with the same
    favorite for every name, and an initialization from the storage either
    order leaves reads that same favorites map. Nothing is stated about the
    stored text itself, whose keys follow the order of the clicks. *)
Theorem toggles_commute (row1 row2 : WithFavorites.Row)
    (st : WithFavorites.State) (w : World) :
  exists (st' : WithFavorites.State) (w12 w21 : World),
    Table.clicks env [("favorites", row1); ("favorites", row2)] st w = (Ok st', w12) /\
    Table.clicks env [("favorites", row2); ("favorites", row1)] st w = (Ok st', w21) /\
    WithFavorites.initialFavorites env w12 = (Ok (WithFavorites.favorites st'), w12) /\
    WithFavorites.initialFavorites env w21 = (Ok (WithFavorites.favorites st'), w21).
Proof.
  rewrite !clicks_two_favorites. cbn zeta.
  rewrite (toggled_maps_commute (WithFavorites.favorites st)
             (WithFavorites.row_name row2) (WithFavorites.row_name row1)).
  do 3 eexists. split; [reflexivity|]. split; [reflexivity|].
  rewrite !initialFavorites_eq. cbn [localStorage WithFavorites.favorites].
  rewrite !lookup_insert_eq. cbn [from_option id].
  now rewrite !read_back.
Qed.

End TogglesCommute.

Lemma toggles_commute_witness :
  exists (st' : WithFavorites.State) (w12 w21 : World),
    Table.clicks Example.env
      [("favorites", decorated ∅ Example.bakery); ("favorites", decorated ∅ Example.grocer)]
      Example.openNow Example.world = (Ok st', w12) /\
    Table.clicks Example.env
      [("favorites", decorated ∅ Example.grocer); ("favorites", decorated ∅ Example.bakery)]
      Example.openNow Example.world = (Ok st', w21) /\
    WithFavorites.initialFavorites Example.env w12 = (Ok (WithFavorites.favorites st'), w12) /\
    WithFavorites.initialFavorites Example.env w21 = (Ok (WithFavorites.favorites st'), w21).
Proof.
  exact (toggles_commute Example.env parse_stringify
           (decorated ∅ Example.bakery) (decorated ∅ Example.grocer)
           Example.openNow Example.world).
Defined.

(** A click does not throw and touches neither the filter cells of the state
    nor the store array nor another storage key. *)
Lemma onClick_outcome (env : Env) (columnId : string) (original : WithFavorites.Row)
    (st : WithFavorites.State) (w : World) :
  exists (st' : WithFavorites.State) (w' : World),
    WithFavorites.onClick env columnId original st w = (Ok st', w') /\
    WithFavorites.search st' = WithFavorites.search st /\
    WithFavorites.dayFilter st' = WithFavorites.dayFilter st /\
    WithFavorites.openFilter st' = WithFavorites.openFilter st /\
    WithFavorites.onlyFavs st' = WithFavorites.onlyFavs st /\
    storeData w' = storeData w /\
    (forall key, key <> "favorites" -> localStorage w' !! key = localStorage w !! key) /\
    (localStorage w' !! "favorites" = localStorage w !! "favorites" /\
     WithFavorites.favorites st' = WithFavorites.favorites st \/
     localStorage w' !! "favorites" = Some (JSON_stringify env (WithFavorites.favorites st'))).
Proof.
  destruct (String.eqb_spec columnId "favorites") as [->|Hne].
  - do 2 eexists. split; [apply onClick_favorites|]. cbn.
    repeat split; try reflexivity.
    + intros key Hkey. now rewrite lookup_insert_ne.
    + right. apply lookup_insert_eq.
  - exists st, w. split; [now apply onClick_other_column|].
    repeat split; try reflexivity. now left.
Qed.

Section ClickSequences.

Variable env : Env.

Hypothesis read_back :
  forall m : gmap string bool, JSON_parse env (JSON_stringify env m) = Some m.

(** Storage and state stay in step over any sequence of clicks: started
    from a state whose favorites map is the one an initialization reads from
    the storage, the clicks never throw, and an initialization from the
    storage they leave reads the favorites map they leave, so a reload loses
    no toggle. The clicks change neither the search text, the day filter or
    the two filters, nor the store array, nor any other storage key. *)
Theorem clicks_keep_storage_in_step (events : list (string * WithFavorites.Row))
    (st : WithFavorites.State) (w : World) :
  WithFavorites.initialFavorites env w = (Ok (WithFavorites.favorites st), w) ->
  exists (st' : WithFavorites.State) (w' : World),
    Table.clicks env events st w = (Ok st', w') /\
    WithFavorites.initialFavorites env w' = (Ok (WithFavorites.favorites st'), w') /\
    WithFavorites.search st' = WithFavorites.search st /\
    WithFavorites.dayFilter st' = WithFavorites.dayFilter st /\
    WithFavorites.openFilter st' = WithFavorites.openFilter st /\
    WithFavorites.onlyFavs st' = WithFavorites.onlyFavs st /\
    storeData w' = storeData w /\
    (forall key, key <> "favorites" -> localStorage w' !! key = localStorage w !! key).
Proof.
  revert st w. induction events as [|[columnId original] events IH]; intros st w Hinit.
  - exists st, w. repeat split; try reflexivity. exact Hinit.
  - destruct (onClick_outcome env columnId original st w)
      as (st1 & w1 & Hclick & Hs & Hd & Ho & Hf & Hdata & Hkeys & Hsync).
    assert (Hinit1 : WithFavorites.initialFavorites env w1
                     = (Ok (WithFavorites.favorites st1), w1)).
    { rewrite initialFavorites_eq in *.
      destruct Hsync as [[Hsame Hfavs]|Hwritten].
      - rewrite Hsame, Hfavs.
        destruct (JSON_parse env _); [|discriminate]. now injection Hinit as ->.
      - rewrite Hwritten. cbn [from_option id]. now rewrite read_back. }
    destruct (IH st1 w1 Hinit1) as (st' & w' & Hrest & Hinit' & Hs' & Hd' & Ho' & Hf' &
                                    Hdata' & Hkeys').
    exists st', w'. cbn [Table.clicks]. rewrite (bind_Ok _ _ w w1 st1 Hclick).
    repeat split; try congruence.
    intros key Hkey. now rewrite Hkeys', Hkeys.
Qed.

End ClickSequences.

Lemma clicks_keep_storage_in_step_witness :
  exists (st' : WithFavorites.State) (w' : World),
    Table.clicks Example.env
      [("favorites", decorated ∅ Example.bakery); ("name", decorated ∅ Example.grocer)]
      Example.openNow Example.world = (Ok st', w') /\
    WithFavorites.initialFavorites Example.env w' = (Ok (WithFavorites.favorites st'), w') /\
    WithFavorites.search st' = WithFavorites.search Example.openNow /\
    WithFavorites.dayFilter st' = WithFavorites.dayFilter Example.openNow /\
    WithFavorites.openFilter st' = WithFavorites.openFilter Example.openNow /\
    WithFavorites.onlyFavs st' = WithFavorites.onlyFavs Example.openNow /\
    storeData w' = storeData Example.world /\
    (forall key, key <> "favorites" ->
                 localStorage w' !! key = localStorage Example.world !! key).
Proof.
  apply (clicks_keep_storage_in_step Example.env parse_stringify
           [("favorites", decorated ∅ Example.bakery); ("name", decorated ∅ Example.grocer)]
           Example.openNow Example.world).
  reflexivity.
Defined.

(** ** Toggling under the "Favorites" filter *)

(** After the star of a store is clicked, the "Favorites" filter lists that
    store exactly when it was not a favorite before the click (and passes
    the search and open-now predicates): clicking the star of a listed
    favorite removes it from the list. *)
Theorem toggle_under_favorites_filter (env : Env) (st : WithFavorites.State)
    (store : Store) (w : World) :
  WithFavorites.onlyFavs st = "Favorites" ->
  store ∈ storeData w ->
  exists (st1 : WithFavorites.State) (w1 : World),
    WithFavorites.onClick env "favorites"
      (decorated (WithFavorites.favorites st) store) st w = (Ok st1, w1) /\
    forall rows : list WithFavorites.Row,
      fst (WithFavorites.filteredData env st1 w1) = Ok rows ->
      (decorated (WithFavorites.favorites st1) store ∈ rows <->
       truthy (WithFavorites.favorites st !! name store) = false /\
       searchPredicate env (WithFavorites.search st) store = true /\
       openNowPredicate env (WithFavorites.dayFilter st) (WithFavorites.openFilter st) store
         = true).
Proof.
  intros Honly Hin. do 2 eexists. split; [apply onClick_favorites|].
  cbn [decorated WithFavorites.row_name].
  intros rows Hrows.
  pose proof (filteredData_returns_entriesPresent _ _ _ _ Hrows) as Hpresent.
  rewrite (filteredData_eq _ _ _ Hpresent) in Hrows. injection Hrows as <-.
  cbn [WithFavorites.favorites WithFavorites.onlyFavs WithFavorites.search
       WithFavorites.dayFilter WithFavorites.openFilter storeData].
  rewrite list_elem_of_fmap.
  assert (Hflag : forall s : Store, name s = name store ->
    favoritesPredicate (WithFavorites.onlyFavs st)
      (<[name store := negb (truthy (WithFavorites.favorites st !! name store))]>
         (WithFavorites.favorites st)) s
    = negb (truthy (WithFavorites.favorites st !! name store))).
  { intros s Hs. unfold favoritesPredicate. rewrite Honly. cbn.
    now rewrite Hs, lookup_insert_eq. }
  split.
  - intros (store' & Heq & Hin'). apply decorated_inj in Heq. subst store'.
    apply list_elem_of_In, filter_In in Hin' as [_ Hp].
    apply andb_true_iff in Hp as [[Hf Hs]%andb_true_iff Ho].
    rewrite Hflag in Hf by reflexivity.
    split; [now apply negb_true_iff|]. now split.
  - intros (Hf & Hs & Ho). exists store. split; [reflexivity|].
    apply list_elem_of_In, filter_In. split; [now apply list_elem_of_In|].
    rewrite Hflag by reflexivity. now rewrite Hf, Hs, Ho.
Qed.

Lemma toggle_under_favorites_filter_witness :
  exists (st1 : WithFavorites.State) (w1 : World),
    WithFavorites.onClick Example.env "favorites"
      (decorated (WithFavorites.favorites Example.favoritesOnly) Example.bakery)
      Example.favoritesOnly Example.world = (Ok st1, w1) /\
    forall rows : list WithFavorites.Row,
      fst (WithFavorites.filteredData Example.env st1 w1) = Ok rows ->
      (decorated (WithFavorites.favorites st1) Example.bakery ∈ rows <->
       truthy (WithFavorites.favorites Example.favoritesOnly !! name Example.bakery) = false /\
       searchPredicate Example.env (WithFavorites.search Example.favoritesOnly)
         Example.bakery = true /\
       openNowPredicate Example.env (WithFavorites.dayFilter Example.favoritesOnly)
         (WithFavorites.openFilter Example.favoritesOnly) Example.bakery = true).
Proof.
  apply (toggle_under_favorites_filter Example.env Example.favoritesOnly Example.bakery
           Example.world); [reflexivity|].
  cbn. apply elem_of_cons. now left.
Defined.

(** ** The day selector *)

Lemma Object_keys_spec {A : Type} (o : gmap string A) (key : string) :
  key ∈ Table.Object_keys o <-> is_Some (o !! key).
Proof.
  unfold Table.Object_keys. rewrite list_elem_of_fmap. split.
  - intros ([k v] & -> & Hin). apply elem_of_map_to_list in Hin. now exists v.
  - intros [v Hv]. exists (key, v). split; [reflexivity|]. now apply elem_of_map_to_list.
Qed.

Lemma option_values (keys : list string) (day : string) :
  day ∈ Table.value <$>
    ((fun d => {| Table.value := d; Table.label := d |}) <$> keys) <->
  day ∈ keys.
Proof.
  rewrite list_elem_of_fmap. split.
  - intros (option & -> & Hin). now apply list_elem_of_fmap in Hin as (d & -> & Hd).
  - intros Hin. eexists. split; [|apply list_elem_of_fmap; now exists day]. reflexivity.
Qed.

Lemma dayOptions_first_empty (w : World) (options : list Table.SelectOption) :
  storeData w = [] -> Table.dayOptions w = (Ok options, w) -> False.
Proof.
  intros Hempty. unfold Table.dayOptions.
  rewrite (bind_Ok readStoreData _ w w (storeData w)) by reflexivity.
  now rewrite Hempty.
Qed.

Lemma dayOptions_values (w : World) (first : Store) (rest : list Store)
    (options : list Table.SelectOption) :
  storeData w = first :: rest ->
  Table.dayOptions w = (Ok options, w) ->
  forall day : string,
    day ∈ Table.value <$> options <->
    day = "Current Day" \/ is_Some (hours first !! day).
Proof.
  intros Hstores. unfold Table.dayOptions.
  rewrite (bind_Ok readStoreData _ w w (storeData w)) by reflexivity.
  rewrite Hstores. intros [= <-] day.
  rewrite fmap_cons, elem_of_cons, option_values. cbn [Table.value].
  now rewrite Object_keys_spec.
Qed.

(** The day selector offers "Current Day" and exactly the days for which
    the first store has hours, each labelled with its own name; on an empty
    store array building the options throws a [TypeError]. *)
Theorem dayOptions_of_first_store (w : World) :
  (storeData w = [] -> Table.dayOptions w = (Throw TypeError, w)) /\
  (forall (first : Store) (rest : list Store),
      storeData w = first :: rest ->
      exists options : list Table.SelectOption,
        Table.dayOptions w = (Ok options, w) /\
        (forall day : string,
            day ∈ Table.value <$> options <->
            day = "Current Day" \/ is_Some (hours first !! day)) /\
        (forall option : Table.SelectOption,
            option ∈ options -> Table.label option = Table.value option)).
Proof.
  unfold Table.dayOptions. split.
  - intros Hempty. rewrite (bind_Ok readStoreData _ w w (storeData w)) by reflexivity.
    now rewrite Hempty.
  - intros first rest Hstores.
    rewrite (bind_Ok readStoreData _ w w (storeData w)) by reflexivity.
    rewrite Hstores. eexists. split; [reflexivity|]. split.
    + intros day. rewrite fmap_cons, elem_of_cons, option_values. cbn [Table.value].
      now rewrite Object_keys_spec.
    + intros option [->|Hin]%elem_of_cons; [reflexivity|].
      now apply list_elem_of_fmap in Hin as (day & -> & _).
Qed.

(** When every store has hours for each day the first store has, choosing
    any day the selector offers by name never makes the filtered list
    throw, whatever the other filters are. *)
Theorem offered_days_never_throw (env : Env) (st : WithFavorites.State) (w : World)
    (options : list Table.SelectOption) (option : Table.SelectOption) :
  (forall (first store : Store) (day : string),
      head (storeData w) = Some first ->
      store ∈ storeData w ->
      is_Some (hours first !! day) ->
      is_Some (hours store !! day)) ->
  Table.dayOptions w = (Ok options, w) ->
  option ∈ options ->
  Table.value option <> "Current Day" ->
  exists rows : list WithFavorites.Row,
    WithFavorites.filteredData env (WithFavorites.setDayFilter (Table.value option) st) w
      = (Ok rows, w).
Proof.
  intros Huniform Hoptions Hin Hday.
  destruct (storeData w) as [|first rest] eqn:Hstores.
  { destruct (dayOptions_first_empty w options Hstores Hoptions). }
  destruct (dayOptions_values w first rest options Hstores Hoptions (Table.value option))
    as [Hoffered _].
  destruct Hoffered as [?|Hfirst]; [now apply list_elem_of_fmap; exists option | contradiction |].
  eexists. apply filteredData_eq. intros store Hstore _ _ _.
  cbn [WithFavorites.setDayFilter WithFavorites.dayFilter].
  unfold selectedDay. apply String.eqb_neq in Hday. rewrite Hday.
  rewrite Hstores in Hstore. now apply (Huniform first).
Qed.

Lemma weekdays_days (o c o' c' : string) (day : string) :
  is_Some (Example.weekdays o c !! day) -> is_Some (Example.weekdays o' c' !! day).
Proof.
  unfold Example.weekdays. cbn [fmap list_fmap list_to_map foldr fst snd uncurry].
  rewrite !lookup_insert, !lookup_empty.
  repeat case_decide; eauto.
Qed.

Lemma offered_days_never_throw_witness :
  exists rows : list WithFavorites.Row,
    WithFavorites.filteredData Example.env
      (WithFavorites.setDayFilter "Monday" Example.openNow) Example.world
      = (Ok rows, Example.world).
Proof.
  eapply (offered_days_never_throw Example.env Example.openNow Example.world _
            {| Table.value := "Monday"; Table.label := "Monday" |}).
  - intros first store day [= <-] Hstore.
    cbn in Hstore. apply elem_of_cons in Hstore as [->|Hstore]; [auto|].
    apply elem_of_cons in Hstore as [->|Hstore]; [apply weekdays_days|].
    now apply elem_of_nil in Hstore.
  - reflexivity.
  - apply elem_of_cons. right. apply list_elem_of_fmap. exists "Monday".
    split; [reflexivity|]. apply Object_keys_spec. now eexists.
  - discriminate.
Defined.

(** ** Installing the service worker *)

Section Install.

Context {Response : Type}.
Variable network : string -> ServiceWorker.promise Response.
Variable ok : Response -> bool.

Let store_entry (c : gmap string Response) (entry : string * Response) :=
  <[fst entry := snd entry]> c.

Lemma fetchAll_Fulfilled (urls : list string) (fetched : list (string * Response)) :
  Precache.fetchAll network ok urls = ServiceWorker.Fulfilled fetched ->
  fetched.*1 = urls /\
  forall url response, (url, response) ∈ fetched ->
    network url = ServiceWorker.Fulfilled response /\ ok response = true.
Proof.
  revert fetched. induction urls as [|url urls IH]; intros fetched.
  - intros [= <-]. split; [reflexivity|]. intros ? ? Hin. now apply elem_of_nil in Hin.
  - cbn [Precache.fetchAll]. unfold ServiceWorker.then_.
    destruct (network url) as [response|reason] eqn:Hurl; [|discriminate].
    destruct (ok response) eqn:Hok; [|discriminate].
    destruct (Precache.fetchAll network ok urls) as [rest|reason]; [|discriminate].
    intros [= <-]. destruct (IH rest eq_refl) as [Hurls Hrest].
    split; [cbn; now rewrite Hurls|].
    intros u r [[= -> ->]|Hin]%elem_of_cons; [now split | now apply Hrest].
Qed.

Lemma foldl_store_keeps (fetched : list (string * Response)) (cache : gmap string Response)
    (url : string) :
  is_Some (cache !! url) -> is_Some (foldl store_entry cache fetched !! url).
Proof.
  revert cache. induction fetched as [|[u r] fetched IH]; intros cache Hsome; [exact Hsome|].
  cbn [foldl]. apply IH. unfold store_entry. cbn [fst snd].
  rewrite lookup_insert. case_decide; [now eexists | exact Hsome].
Qed.

Lemma foldl_store_in (fetched : list (string * Response)) (cache : gmap string Response)
    (url : string) :
  url ∈ fetched.*1 -> is_Some (foldl store_entry cache fetched !! url).
Proof.
  revert cache. induction fetched as [|[u r] fetched IH]; intros cache Hin.
  - now apply elem_of_nil in Hin.
  - cbn [foldl]. cbn in Hin. apply elem_of_cons in Hin as [->|Hin]; [|now apply IH].
    apply foldl_store_keeps. unfold store_entry. cbn [fst snd].
    rewrite lookup_insert_eq. now eexists.
Qed.

Lemma foldl_store_notin (fetched : list (string * Response)) (cache : gmap string Response)
    (url : string) :
  url ∉ fetched.*1 -> foldl store_entry cache fetched !! url = cache !! url.
Proof.
  revert cache. induction fetched as [|[u r] fetched IH]; intros cache Hnotin; [reflexivity|].
  cbn [foldl]. cbn in Hnotin. apply not_elem_of_cons in Hnotin as [Hne Hnotin].
  rewrite IH by exact Hnotin. unfold store_entry. cbn [fst snd].
  now rewrite lookup_insert_ne.
Qed.

Lemma foldl_store_NoDup (fetched : list (string * Response)) (cache : gmap string Response)
    (url : string) (response : Response) :
  NoDup fetched.*1 -> (url, response) ∈ fetched ->
  foldl store_entry cache fetched !! url = Some response.
Proof.
  revert cache. induction fetched as [|[u r] fetched IH]; intros cache Hnodup Hin.
  - now apply elem_of_nil in Hin.
  - cbn [foldl]. cbn in Hnodup. apply NoDup_cons in Hnodup as [Hfresh Hnodup].
    apply elem_of_cons in Hin as [[= -> ->]|Hin]; [|now apply IH].
    rewrite foldl_store_notin by exact Hfresh. unfold store_entry. cbn [fst snd].
    apply lookup_insert_eq.
Qed.

Lemma storage_match_written (cacheName url : string) (content : gmap string Response)
    (caches : Precache.CacheStorage) :
  is_Some (content !! url) ->
  is_Some (Precache.storage_match url (Precache.writeCache cacheName content caches)).
Proof.
  intros [response Hcontent]. induction caches as [|[n c] caches IH].
  - cbn. rewrite Hcontent. now eexists.
  - cbn [Precache.writeCache]. destruct (String.eqb n cacheName).
    + cbn. rewrite Hcontent. now eexists.
    + cbn [Precache.storage_match]. destruct (c !! url); [now eexists | exact IH].
Qed.

Lemma storage_match_unchanged (cacheName url : string) (content : gmap string Response)
    (caches : Precache.CacheStorage) :
  content !! url = default ∅ (Precache.lookupCache cacheName caches) !! url ->
  Precache.storage_match url (Precache.writeCache cacheName content caches) =
  Precache.storage_match url caches.
Proof.
  induction caches as [|[n c] caches IH]; intros Hcontent.
  - cbn in *. now rewrite Hcontent.
  - cbn [Precache.writeCache Precache.lookupCache] in *. destruct (String.eqb n cacheName).
    + cbn in *. now rewrite Hcontent.
    + cbn [Precache.storage_match]. now rewrite IH.
Qed.

Lemma precached_NoDup : NoDup Precache.precached.
Proof. apply (bool_decide_unpack _). vm_compute. exact I. Qed.

(** The shape of a successful installation. *)
Lemma onInstall_Fulfilled (caches : Precache.CacheStorage) :
  fst (Precache.onInstall network ok caches) = ServiceWorker.Fulfilled tt ->
  exists fetched : list (string * Response),
    Precache.fetchAll network ok Precache.precached = ServiceWorker.Fulfilled fetched /\
    snd (Precache.onInstall network ok caches) =
    Precache.writeCache "my-cache"
      (foldl store_entry (default ∅ (Precache.lookupCache "my-cache" caches)) fetched)
      caches.
Proof.
  unfold Precache.onInstall, Precache.addAll, ServiceWorker.then_.
  destruct (Precache.fetchAll network ok Precache.precached) as [fetched|reason];
    [|discriminate].
  intros _. now exists fetched.
Qed.

(** After a successful installation every precached URL is answered from
    the cache, whatever the network does then; on a first installation, with
    no cache yet, the answer is the response the network gave, with an ok
    status, when the worker was installed. *)
Theorem precached_urls_answered_offline (offline : string -> ServiceWorker.promise Response)
    (caches : Precache.CacheStorage) (url : string) :
  fst (Precache.onInstall network ok caches) = ServiceWorker.Fulfilled tt ->
  url ∈ Precache.precached ->
  let installed := snd (Precache.onInstall network ok caches) in
  (exists response : Response,
      ServiceWorker.onFetch (Precache.browserOf offline installed) url
        = ServiceWorker.Fulfilled response) /\
  (caches = [] ->
   exists response : Response,
     network url = ServiceWorker.Fulfilled response /\
     ok response = true /\
     ServiceWorker.onFetch (Precache.browserOf offline installed) url
       = ServiceWorker.Fulfilled response).
Proof.
  intros Hinstall Hurl installed. subst installed.
  destruct (onInstall_Fulfilled caches Hinstall) as (fetched & Hfetched & ->).
  destruct (fetchAll_Fulfilled _ _ Hfetched) as [Hurls Hnetwork].
  unfold ServiceWorker.onFetch, Precache.browserOf, ServiceWorker.then_.
  cbn [ServiceWorker.caches_match ServiceWorker.fetch]. split.
  - destruct (storage_match_written "my-cache" url
                (foldl store_entry (default ∅ (Precache.lookupCache "my-cache" caches)) fetched)
                caches) as [response Hmatch].
    { apply foldl_store_in. now rewrite Hurls. }
    exists response. now rewrite Hmatch.
  - intros ->. cbn [Precache.lookupCache Precache.writeCache Precache.storage_match
                    from_option id].
    rewrite <- Hurls in Hurl. apply list_elem_of_fmap in Hurl as ([u response] & -> & Hin).
    cbn [fst]. exists response.
    destruct (Hnetwork u response Hin) as [Hnet Hok].
    split; [exact Hnet|]. split; [exact Hok|].
    rewrite (foldl_store_NoDup fetched ∅ u response); [reflexivity| |exact Hin].
    rewrite Hurls. apply precached_NoDup.
Qed.

(** The installation stores nothing but the precached URLs, and nothing at
    all when it is rejected: for a URL outside the list, or after a failed
    installation, the fetch handler answers as it did before. *)
Theorem install_stores_only_precached (later : string -> ServiceWorker.promise Response)
    (caches : Precache.CacheStorage) (url : string) :
  url ∉ Precache.precached \/
  (exists reason : exn,
      fst (Precache.onInstall network ok caches) = ServiceWorker.Rejected reason) ->
  ServiceWorker.onFetch
    (Precache.browserOf later (snd (Precache.onInstall network ok caches))) url =
  ServiceWorker.onFetch (Precache.browserOf later caches) url.
Proof.
  intros Hcase.
  unfold ServiceWorker.onFetch, Precache.browserOf, ServiceWorker.then_.
  cbn [ServiceWorker.caches_match ServiceWorker.fetch].
  assert (Hmatch : Precache.storage_match url (snd (Precache.onInstall network ok caches))
                   = Precache.storage_match url caches); [|now rewrite Hmatch].
  unfold Precache.onInstall, Precache.addAll, ServiceWorker.then_ in *.
  destruct (Precache.fetchAll network ok Precache.precached) as [fetched|reason] eqn:Hfetched;
    cbn [fst snd] in *.
  - destruct Hcase as [Hnotin|[reason [=]]].
    apply storage_match_unchanged.
    apply (foldl_store_notin fetched).
    now rewrite (proj1 (fetchAll_Fulfilled _ _ Hfetched)).
  - now apply storage_match_unchanged.
Qed.

End Install.

Lemma precached_urls_answered_offline_witness :
  let network := ServiceWorker.fetch Example.browser in
  let offline := fun _ : string => ServiceWorker.Rejected (A := string) TypeError in
  let installed := snd (Precache.onInstall network (fun _ => true) []) in
  (exists response : string,
      ServiceWorker.onFetch (Precache.browserOf offline installed) "/manifest.json"
        = ServiceWorker.Fulfilled response) /\
  (([] : Precache.CacheStorage (Response := string)) = [] ->
   exists response : string,
     network "/manifest.json" = ServiceWorker.Fulfilled response /\
     true = true /\
     ServiceWorker.onFetch (Precache.browserOf offline installed) "/manifest.json"
       = ServiceWorker.Fulfilled response).
Proof.
  apply (precached_urls_answered_offline (ServiceWorker.fetch Example.browser)
           (fun _ => true) (fun _ => ServiceWorker.Rejected TypeError) [] "/manifest.json").
  - reflexivity.
  - apply (bool_decide_unpack _). vm_compute. exact I.
Defined.

Lemma install_stores_only_precached_witness :
  let network := ServiceWorker.fetch Example.browser in
  ServiceWorker.onFetch
    (Precache.browserOf network (snd (Precache.onInstall network (fun _ => true) [])))
    "/hours.json" =
  ServiceWorker.onFetch (Precache.browserOf network []) "/hours.json".
Proof.
  apply (install_stores_only_precached (ServiceWorker.fetch Example.browser)
           (fun _ => true) (ServiceWorker.fetch Example.browser) [] "/hours.json").
  left. apply (bool_decide_unpack _). vm_compute. exact I.
Defined.
